(** * A shallow embedding of [nlp_agent.py]

    The slot-extraction pipeline of the NLP agent: the capability adapter
    ([NLPModelsHelper]), the generic field ([NLPField]), the structural
    field with its recipe engine ([NLPStructuralField]) and the dispatcher
    ([NLPAgent]).

    The two transformer pipelines are external: they enter as a record of
    two functions, so that everything below is a function of the prompt and
    of the pipelines' outputs.  Python exceptions are the [Raise] branch of
    [result]; Python's [None] is the [None] of [option]. *)

From Stdlib Require Import ZArith QArith String Ascii List DecimalString Sorted.
From Stdlib Require Import Floats.SpecFloat.
From stdpp Require Import gmap strings list fin_maps.

Local Open Scope string_scope.
Local Open Scope list_scope.

(** ** Exceptions *)

Inductive exn : Type :=
| IndexError
| KeyError (key : string)
| ValueError
| TypeError
| AttributeError (attr : string).

Inductive result (A : Type) : Type :=
| Ok (a : A)
| Raise (e : exn).

Arguments Ok {A} a.
Arguments Raise {A} e.

#[global] Instance result_ret : MRet result := fun A a => Ok a.
#[global] Instance result_bind : MBind result := fun A B f m =>
  match m with
  | Ok a => f a
  | Raise e => Raise e
  end.
#[global] Instance result_fmap : FMap result := fun A B f m =>
  match m with
  | Ok a => Ok (f a)
  | Raise e => Raise e
  end.

(** ** Characters and strings

    Text is ASCII: on it [str.isdigit] and the pattern class [\d] are
    [0-9], [str.isalnum] is [0-9A-Za-z], and [str.split()] separates at
    tab, line feed, vertical tab, form feed, carriage return, the four
    separators 28 to 31 and the space. *)

Module Py.

Definition ord (c : ascii) : N := N_of_ascii c.

Definition isdigit (c : ascii) : bool :=
  (48 <=? ord c)%N && (ord c <=? 57)%N.

Definition isupper (c : ascii) : bool :=
  (65 <=? ord c)%N && (ord c <=? 90)%N.

Definition islower (c : ascii) : bool :=
  (97 <=? ord c)%N && (ord c <=? 122)%N.

Definition isalpha (c : ascii) : bool := isupper c || islower c.

Definition isalnum (c : ascii) : bool := isalpha c || isdigit c.

Definition isspace (c : ascii) : bool :=
  ((9 <=? ord c)%N && (ord c <=? 13)%N)
  || ((28 <=? ord c)%N && (ord c <=? 32)%N).

Definition chars (s : string) : list ascii := list_ascii_of_string s.
Definition str (l : list ascii) : string := string_of_list_ascii l.

(** [s.split()]: the maximal runs of non-space characters, in order. *)
Fixpoint split_from (word : list ascii) (l : list ascii) : list string :=
  match l with
  | [] => match word with [] => [] | _ => [str word] end
  | c :: l' =>
      if isspace c
      then match word with
           | [] => split_from [] l'
           | _ => str word :: split_from [] l'
           end
      else split_from (word ++ [c])%list l'
  end.

Definition split (s : string) : list string := split_from [] (chars s).

(** [''.join(l)] *)
Definition join (l : list string) : string := foldr String.append "" l.

End Py.

(** ** The amount pattern

    [(?<![a-zA-Z:])[-+]?\d*\.?\d+], matched the way a backtracking engine
    does: every quantifier is greedy and gives back on failure of what
    follows it. *)

Module Re.

Import Py.

(** [\d+] at the end of the pattern: the longest run of digits, at least
    one. *)
Fixpoint digits (l : list ascii) : list ascii :=
  match l with
  | c :: l' => if isdigit c then c :: digits l' else []
  | [] => []
  end.

Definition plus_digits (l : list ascii) : option (list ascii) :=
  match digits l with
  | [] => None
  | ds => Some ds
  end.

(** [\.?\d+]: the point is taken when present, and given back when no digit
    follows it. *)
Definition opt_dot (l : list ascii) : option (list ascii) :=
  match l with
  | c :: l' =>
      if Ascii.eqb c "."
      then match plus_digits l' with
           | Some m => Some (c :: m)
           | None => plus_digits l
           end
      else plus_digits l
  | [] => plus_digits l
  end.

(** [\d*\.?\d+]: one more digit is taken while the rest still matches. *)
Fixpoint star_digits (l : list ascii) : option (list ascii) :=
  match l with
  | c :: l' =>
      if isdigit c
      then match star_digits l' with
           | Some m => Some (c :: m)
           | None => opt_dot l
           end
      else opt_dot l
  | [] => opt_dot l
  end.

(** [[-+]?\d*\.?\d+] *)
Definition opt_sign (l : list ascii) : option (list ascii) :=
  match l with
  | c :: l' =>
      if Ascii.eqb c "-" || Ascii.eqb c "+"
      then match star_digits l' with
           | Some m => Some (c :: m)
           | None => star_digits l
           end
      else star_digits l
  | [] => star_digits l
  end.

(** [(?<![a-zA-Z:])]: the character before the position, if there is one,
    is neither a letter nor a colon. *)
Definition lookbehind (prev : option ascii) : bool :=
  match prev with
  | None => true
  | Some c => negb (isalpha c || Ascii.eqb c ":")
  end.

Definition match_at (prev : option ascii) (l : list ascii) : option (list ascii) :=
  if lookbehind prev then opt_sign l else None.

(** [re.findall]: the matches from left to right, without overlap.  [skip]
    counts the characters of the last match that are still to be passed;
    [prev] is the character before the position. *)
Fixpoint findall_from (skip : nat) (prev : option ascii) (l : list ascii)
  : list string :=
  match skip with
  | S k =>
      match l with
      | c :: l' => findall_from k (Some c) l'
      | [] => []
      end
  | O =>
      match match_at prev l with
      | Some m =>
          str m :: match l with
                   | c :: l' => findall_from (Nat.pred (length m)) (Some c) l'
                   | [] => []
                   end
      | None =>
          match l with
          | c :: l' => findall_from O (Some c) l'
          | [] => []
          end
      end
  end.

Definition findall (s : string) : list string := findall_from O None (chars s).

End Re.

(** ** Floats

    A Python [float] is an IEEE 754 binary64 number: [spec_float] at
    precision 53 and maximal exponent 1024. *)

Module Float.

Import Py.

Definition prec : Z := 53.
Definition emax : Z := 1024.

(** The binary64 number nearest to [digits * 10 ^ exp10] (ties to even),
    with the sign [neg]: the quotient of two integers, rounded once. *)
Definition of_decimal (neg : bool) (digits : Z) (exp10 : Z) : spec_float :=
  match (digits * 10 ^ Z.max exp10 0)%Z, (10 ^ Z.max (- exp10) 0)%Z with
  | Zpos num, Zpos den =>
      SFdiv prec emax (S754_finite neg num 0) (S754_finite false den 0)
  | _, _ => S754_zero neg
  end.

Definition digit_value (c : ascii) : Z := Z.of_N (ord c) - 48.

Definition int_of_digits (l : list ascii) : Z :=
  fold_left (fun acc c => 10 * acc + digit_value c)%Z l 0%Z.

Fixpoint digit_run (l : list ascii) : list ascii * list ascii :=
  match l with
  | c :: l' =>
      if isdigit c
      then let '(ds, rest) := digit_run l' in (c :: ds, rest)
      else ([], l)
  | [] => ([], [])
  end.

(** [float(s)] on the signed decimal literals: an optional sign, digits, and
    optionally a point and digits, with a digit on at least one side of the
    point.  These are the strings the amount pattern matches; the rest of the
    grammar of [float] (blanks, exponents, [inf], [nan], underscores) is not
    needed and is answered with [ValueError]. *)
Definition of_str (s : string) : result spec_float :=
  let l := chars s in
  let '(neg, l) :=
    match l with
    | c :: l' =>
        if Ascii.eqb c "-" then (true, l')
        else if Ascii.eqb c "+" then (false, l')
        else (false, l)
    | [] => (false, l)
    end in
  let '(int, rest) := digit_run l in
  match rest with
  | [] =>
      match int with
      | [] => Raise ValueError
      | _ => Ok (of_decimal neg (int_of_digits int) 0)
      end
  | c :: rest' =>
      if Ascii.eqb c "."
      then
        let '(frac, rest'') := digit_run rest' in
        match rest'', (int ++ frac)%list with
        | [], _ :: _ =>
            Ok (of_decimal neg (int_of_digits (int ++ frac)%list)
                  (- Z.of_nat (length frac)))
        | _, _ => Raise ValueError
        end
      else Raise ValueError
  end.

(** *** [repr] of a float

    The shortest decimal digit string that reads back as the same float
    and, among those, the one nearest to it; written in positional notation
    when the decimal point falls within [-4 < decpt <= 16] and in exponent
    notation otherwise. *)

(** [m * 2 ^ e / 10 ^ j] as a fraction of two positive integers. *)
Definition scaled (m : positive) (e j : Z) : Z * Z :=
  ((Zpos m * 2 ^ Z.max e 0 * 10 ^ Z.max (- j) 0)%Z,
   (2 ^ Z.max (- e) 0 * 10 ^ Z.max j 0)%Z).

(** The decimal exponent [k] with [10 ^ k <= m * 2 ^ e < 10 ^ (k + 1)]:
    an estimate from the binary logarithm, then the exact test. *)
Definition log10_floor (m : positive) (e : Z) : Z :=
  let k0 := (((Z.log2 (Zpos m) + e) * 30103) / 100000)%Z in
  let fits k := let '(n, d) := scaled m e k in (d <=? n)%Z in
  if fits (k0 + 1)%Z then (k0 + 1)%Z
  else if fits k0 then k0
  else (k0 - 1)%Z.

Definition reads_back (m : positive) (e : Z) (d j : Z) : bool :=
  match of_decimal false d j with
  | S754_finite _ m' e' => (m' =? m)%positive && (e' =? e)%Z
  | _ => false
  end.

(** The [n]-digit candidates around [m * 2 ^ e]: the one below and the one
    above; [None] when neither reads back. *)
Definition candidate (m : positive) (e : Z) (k : Z) (n : Z) : option (Z * Z) :=
  let j := (k - n + 1)%Z in
  let '(num, den) := scaled m e j in
  let lo := (num / den)%Z in
  let r := (num mod den)%Z in
  let hi := (lo + 1)%Z in
  let lo_ok := reads_back m e lo j in
  let hi_ok := negb (r =? 0)%Z && reads_back m e hi j in
  let nearer :=
    match (2 * r ?= den)%Z with
    | Lt => lo
    | Gt => hi
    | Eq => if Z.even lo then lo else hi
    end in
  match lo_ok, hi_ok with
  | true, true => Some (nearer, j)
  | true, false => Some (lo, j)
  | false, true => Some (hi, j)
  | false, false => None
  end.

Fixpoint shortest_from (fuel : nat) (m : positive) (e k n : Z) : Z * Z :=
  match fuel with
  | O =>
      let j := (k - n + 1)%Z in
      let '(num, den) := scaled m e j in
      ((num / den)%Z, j)
  | S fuel' =>
      match candidate m e k n with
      | Some dj => dj
      | None => shortest_from fuel' m e k (n + 1)%Z
      end
  end.

(** Digits without trailing zeros, and the matching power of ten. *)
Fixpoint strip_zeros (fuel : nat) (d j : Z) : Z * Z :=
  match fuel with
  | O => (d, j)
  | S fuel' =>
      if ((d mod 10 =? 0) && negb (d =? 0))%Z
      then strip_zeros fuel' (d / 10)%Z (j + 1)%Z
      else (d, j)
  end.

Definition str_of_Z (z : Z) : string :=
  NilZero.string_of_uint (N.to_uint (Z.to_N z)).

Fixpoint zeros (n : nat) : string :=
  match n with
  | O => ""
  | S n' => "0" +:+ zeros n'
  end.

Definition substring_from (n : nat) (s : string) : string :=
  String.substring n (String.length s - n) s.

(** The digit string [ds] with its decimal point after [decpt] digits. *)
Definition layout (ds : string) (decpt : Z) : string :=
  let len := Z.of_nat (String.length ds) in
  if ((decpt <=? -4) || (16 <? decpt))%Z
  then
    let x := (decpt - 1)%Z in
    let mant :=
      match String.length ds with
      | 1%nat => ds
      | _ => String.substring 0 1 ds +:+ "." +:+ substring_from 1 ds
      end in
    let xs := str_of_Z (Z.abs x) in
    mant +:+ "e" +:+ (if (x <? 0)%Z then "-" else "+")
         +:+ zeros (2 - String.length xs) +:+ xs
  else if (decpt <=? 0)%Z
  then "0." +:+ zeros (Z.to_nat (- decpt)) +:+ ds
  else if (len <=? decpt)%Z
  then ds +:+ zeros (Z.to_nat (decpt - len)) +:+ ".0"
  else String.substring 0 (Z.to_nat decpt) ds +:+ "."
         +:+ substring_from (Z.to_nat decpt) ds.

Definition repr (x : spec_float) : string :=
  match x with
  | S754_nan => "nan"
  | S754_infinity neg => if neg then "-inf" else "inf"
  | S754_zero neg => if neg then "-0.0" else "0.0"
  | S754_finite neg m e =>
      let k := log10_floor m e in
      let '(d, j) := shortest_from 17 m e k 1 in
      let '(d, j) := strip_zeros 17 d j in
      let ds := str_of_Z d in
      (if neg then "-" else "") +:+ layout ds (Z.of_nat (String.length ds) + j)
  end.

End Float.

(** ** Values and dictionaries

    The values the pipeline stores in [parsed_items]: booleans, strings,
    floats and the (number, unit) pair.  A Python dict with string keys is
    a [gmap string value]. *)

Inductive value : Type :=
| VBool (b : bool)
| VStr (s : string)
| VFloat (x : spec_float)
| VTuple (a b : value).

Abbreviation dict := (gmap string value).

Module Value.

Import Py.

Definition squote : ascii := "'"%char.
Definition dquote : ascii := ascii_of_N 34.
Definition backslash : ascii := ascii_of_N 92.

Definition hex_digit (n : N) : ascii :=
  if (n <? 10)%N then ascii_of_N (48 + n) else ascii_of_N (87 + n).

Definition escape (quote c : ascii) : list ascii :=
  if Ascii.eqb c quote || Ascii.eqb c backslash then [backslash; c]
  else if (ord c =? 9)%N then [backslash; "t"%char]
  else if (ord c =? 10)%N then [backslash; "n"%char]
  else if (ord c =? 13)%N then [backslash; "r"%char]
  else if (ord c <? 32)%N || (126 <? ord c)%N
  then [backslash; "x"%char; hex_digit (ord c / 16); hex_digit (ord c mod 16)]
  else [c].

(** [repr] of a string: single quotes, unless the text holds a single quote
    and no double quote. *)
Definition repr_str (s : string) : string :=
  let l := chars s in
  let quote :=
    if existsb (Ascii.eqb squote) l && negb (existsb (Ascii.eqb dquote) l)
    then dquote else squote in
  str (quote :: concat (map (escape quote) l) ++ [quote])%list.

Fixpoint repr (v : value) : string :=
  match v with
  | VBool b => if b then "True" else "False"
  | VStr s => repr_str s
  | VFloat x => Float.repr x
  | VTuple a b => "(" +:+ repr a +:+ ", " +:+ repr b +:+ ")"
  end.

(** What a replacement field of an f-string writes for a value. *)
Definition format (v : value) : string :=
  match v with
  | VStr s => s
  | _ => repr v
  end.

End Value.

(** ** The pipelines ([NLPModels])

    The zero-shot classifier answers with its labels and their scores, the
    question answerer with its answer span.  A score is the rational value
    of the float the classifier returns. *)

Module NLPModels.

Record zero_shot_output : Type := {
  labels : list string;
  scores : list Q
}.

Record t : Type := {
  zero_shot : string -> list string -> zero_shot_output;
  question_answerer : string -> string -> string
}.

End NLPModels.

(** The rational value of a finite float. *)
Definition float_value (x : spec_float) : Q :=
  match x with
  | S754_finite neg m e =>
      (inject_Z (if neg then Zneg m else Zpos m) * 2 ^ e)%Q
  | _ => 0%Q
  end.

(** ** The capability adapter ([NLPModelsHelper]) *)

Module NLPModelsHelper.

(** [zero_shot_threshold: float = 0.6] *)
Definition zero_shot_threshold : spec_float := Float.of_decimal false 6 (-1).

Definition gt (a b : Q) : bool := negb (Qle_bool a b).

(** [Series.idxmax]: the position of the first greatest score. *)
Fixpoint idxmax_from (i best_i : nat) (best : Q) (l : list Q) : nat :=
  match l with
  | [] => best_i
  | s :: l' =>
      if gt s best
      then idxmax_from (S i) i s l'
      else idxmax_from (S i) best_i best l'
  end.

Definition idxmax (l : list Q) : result nat :=
  match l with
  | [] => Raise ValueError
  | s :: l' => Ok (idxmax_from 1 0 s l')
  end.

Section methods.

Variable nlp_models : NLPModels.t.

Definition zero_shot (prompt candidate_label : string) : result bool :=
  match NLPModels.scores (NLPModels.zero_shot nlp_models prompt [candidate_label]) with
  | s :: _ => Ok (gt s (float_value zero_shot_threshold))
  | [] => Raise IndexError
  end.

Definition zero_shot_multiple (prompt : string) (candidate_labels : list string)
  : result string :=
  let df := NLPModels.zero_shot nlp_models prompt candidate_labels in
  if negb (length (NLPModels.labels df) =? length (NLPModels.scores df))%nat
  then Raise ValueError
  else
    i ← idxmax (NLPModels.scores df);
    match NLPModels.labels df !! i with
    | Some label => Ok label
    | None => Raise IndexError
    end.

Definition question_answerer (question context : string) : string :=
  NLPModels.question_answerer nlp_models question context.

End methods.

End NLPModelsHelper.

(** ** The generic field ([NLPField])

    [elements], [directions], [parsed_items_to_discard] and [summary] are
    what a subclass supplies; the methods of the base class reach them
    through [self]. *)

Module NLPField.

Section methods.

Variable nlp_models : NLPModels.t.
Variables (name : string) (other_names : list string).
Variables (elements directions parsed_items_to_discard : list string).
Variable summary : dict -> result string.

Fixpoint found_inside_others (names : list string) (prompt : string) : result bool :=
  match names with
  | [] => Ok false
  | n :: names' =>
      b ← NLPModelsHelper.zero_shot nlp_models prompt n;
      if b : bool then Ok true else found_inside_others names' prompt
  end.

Definition found_inside (prompt : string) : result bool :=
  b ← NLPModelsHelper.zero_shot nlp_models prompt name;
  if b : bool then Ok true else found_inside_others other_names prompt.

Definition which_element (prompt : string) : result (option string) :=
  candidate ← NLPModelsHelper.zero_shot_multiple nlp_models prompt elements;
  b ← NLPModelsHelper.zero_shot nlp_models prompt candidate;
  Ok (if b : bool then Some candidate else None).

Definition element_name (prompt element : string) : result (option string) :=
  let question := "Which is the name of the " +:+ element +:+ "?" in
  let name := NLPModelsHelper.question_answerer nlp_models question prompt in
  if String.eqb name "" then Ok None
  else
    match Py.split name with
    | first :: _ => Ok (Some first)
    | [] => Raise IndexError
    end.

Definition action (prompt element element_name : string) : string :=
  let question :=
    "What should we do with the " +:+ element +:+ " " +:+ element_name +:+ "?" in
  NLPModelsHelper.question_answerer nlp_models question prompt.

Definition overall_direction (prompt : string) : string :=
  let question := "To where?" in
  NLPModelsHelper.question_answerer nlp_models question prompt.

Definition direction (prompt : string) : result string :=
  NLPModelsHelper.zero_shot_multiple nlp_models prompt directions.

Definition amount (prompt : string) : string :=
  let question := "By how much?" in
  NLPModelsHelper.question_answerer nlp_models question prompt.

Definition amount_breakdown (amount : string) : result (option (spec_float * string)) :=
  match Re.findall amount with
  | [] => Ok None
  | number :: _ =>
      let unit :=
        Py.join (map (fun letter => String letter "")
                   (filter (fun letter => Py.isalnum letter && negb (Py.isdigit letter))
                      (Py.chars amount))) in
      let unit := if String.eqb unit "" then "m" else unit in
      x ← Float.of_str number;
      Ok (Some (x, unit))
  end.

Definition on_fail (item : string) (parsed_items : option dict) : result string :=
  txt ← match parsed_items with
        | None => Ok "Sorry, "
        | Some parsed_items =>
            s ← summary parsed_items;
            Ok ("Hey! I understood " +:+ s +:+ ". However, ")
        end;
  let txt := txt +:+ "I could not understand which " +:+ item
                 +:+ " you are talking about. " in
  let txt := txt +:+ "Would you mind to rephrase it in a clear way for me and try again? Thanks in advance!" in
  Ok txt.

Definition discard_items (parsed_items : dict) : dict :=
  filter (fun kv => kv.1 ∉ parsed_items_to_discard) parsed_items.

Definition parse_amount (parsed_items : dict) : result dict :=
  match parsed_items !! "number_unit" with
  | None => Raise (KeyError "number_unit")
  | Some (VTuple number unit) =>
      Ok (<["unit" := unit]> (<["number" := number]> parsed_items))
  | Some (VStr s) =>
      match Py.chars s with
      | [number; unit] =>
          Ok (<["unit" := VStr (String unit "")]>
                (<["number" := VStr (String number "")]> parsed_items))
      | _ => Raise ValueError
      end
  | Some _ => Raise TypeError
  end.

End methods.

End NLPField.

(** ** The structural field ([NLPStructuralField]) *)

Module NLPStructuralField.

Definition elements : list string := ["wall"; "slab"; "beam"; "column"].
Definition directions : list string :=
  ["up"; "down"; "front"; "back"; "left"; "right"].

Definition parsed_items_to_discard : list string :=
  ["prompt"; "action"; "overall_direction"; "amount"; "number_unit"].

Definition summary (parsed_items : dict) : result string :=
  let txt := "" in
  match parsed_items !! "element" with
  | None => Ok txt
  | Some element =>
  let txt := txt +:+ "a " +:+ Value.format element in
  match parsed_items !! "element_name" with
  | None => Ok txt
  | Some element_name =>
  let txt := txt +:+ " named " +:+ Value.format element_name in
  match parsed_items !! "direction" with
  | None => Ok txt
  | Some direction =>
  let txt := txt +:+ " is requested to be moved " +:+ Value.format direction in
  match parsed_items !! "number" with
  | None => Ok txt
  | Some number =>
  match parsed_items !! "unit" with
  | None => Raise (KeyError "unit")
  | Some unit =>
  let txt := txt +:+ " by " +:+ Value.format number +:+ " " +:+ Value.format unit in
  Ok txt
  end end end end end.

(** How a step names its arguments: one slot name or a list of them. *)
Inductive args_spec : Type :=
| Arg (arg : string)
| Args (args : list string).

Record step_data : Type := {
  func : list value -> result (option value);
  args : option args_spec;
  readable_value_name : option string
}.

(** The events a run of the engine goes through: a slot stored by a step
    (with the slot set after it), and a call of [discard_items] (with the
    slot set it is applied to). *)
Inductive event : Type :=
| Stored (step_name : string) (parsed_items : dict)
| Discarded (parsed_items : dict).

(** How the [for] loop of [process_prompt] ends: by its [return], or by
    running out of steps. *)
Inductive loop_exit : Type :=
| Returned (result : dict)
| Finished (parsed_items : dict).

Section methods.

Variable nlp_models : NLPModels.t.

Definition on_fail : string -> option dict -> result string :=
  NLPField.on_fail summary.

Definition discard_items : dict -> dict :=
  NLPField.discard_items parsed_items_to_discard.

Definition nlp_recipe : list (string * step_data) :=
  [ ("element",
     {| func := fun a =>
          match a with
          | [VStr prompt] =>
              option_map VStr <$> NLPField.which_element nlp_models elements prompt
          | _ => Raise TypeError
          end;
        args := Some (Arg "prompt");
        readable_value_name := None |});
    ("element_name",
     {| func := fun a =>
          match a with
          | [VStr prompt; VStr element] =>
              option_map VStr <$> NLPField.element_name nlp_models prompt element
          | _ => Raise TypeError
          end;
        args := Some (Args ["prompt"; "element"]);
        readable_value_name := None |});
    ("action",
     {| func := fun a =>
          match a with
          | [VStr prompt; VStr element; VStr element_name] =>
              Ok (Some (VStr (NLPField.action nlp_models prompt element element_name)))
          | _ => Raise TypeError
          end;
        args := Some (Args ["prompt"; "element"; "element_name"]);
        readable_value_name := None |});
    ("overall_direction",
     {| func := fun a =>
          match a with
          | [VStr prompt] =>
              Ok (Some (VStr (NLPField.overall_direction nlp_models prompt)))
          | _ => Raise TypeError
          end;
        args := Some (Args ["prompt"]);
        readable_value_name := Some "direction" |});
    ("direction",
     {| func := fun a =>
          match a with
          | [VStr prompt] =>
              (fun d => Some (VStr d)) <$> NLPField.direction nlp_models directions prompt
          | _ => Raise TypeError
          end;
        args := Some (Arg "overall_direction");
        readable_value_name := None |});
    ("amount",
     {| func := fun a =>
          match a with
          | [VStr prompt] =>
              Ok (Some (VStr (NLPField.amount nlp_models prompt)))
          | _ => Raise TypeError
          end;
        args := Some (Arg "action");
        readable_value_name := None |});
    ("number_unit",
     {| func := fun a =>
          match a with
          | [VStr amount] =>
              option_map (fun nu => VTuple (VFloat nu.1) (VStr nu.2))
                <$> NLPField.amount_breakdown amount
          | _ => Raise TypeError
          end;
        args := Some (Arg "amount");
        readable_value_name := Some "amount" |}) ].

Definition on_success (parsed_items : dict) : result string :=
  s ← summary parsed_items;
  Ok ("Hey! Perfect, I understood that " +:+ s +:+ ". Doing my job now!").

Definition getitem (parsed_items : dict) (key : string) : result value :=
  match parsed_items !! key with
  | Some v => Ok v
  | None => Raise (KeyError key)
  end.

Definition process_one_step (value_name : string) (parsed_items : dict)
    (func : list value -> result (option value))
    (args : option args_spec) (readable_value_name : option string)
  : result dict :=
  args ← match args with
         | None => Ok []
         | Some args =>
             let args := match args with Args l => l | Arg a => [a] end in
             mapM (getitem parsed_items) args
         end;
  value ← func args;
  match value with
  | None =>
      let value_name :=
        match readable_value_name with
        | None => value_name
        | Some readable => readable
        end in
      answer ← on_fail value_name (Some parsed_items);
      Ok (<["answer" := VStr answer]> parsed_items)
  | Some value => Ok (<[value_name := value]> parsed_items)
  end.

(** The [for] loop of [process_prompt], together with the events of the
    run up to its exit or to the exception that ends it. *)
Fixpoint for_steps (steps : list (string * step_data)) (parsed_items : dict)
  : list event * result loop_exit :=
  match steps with
  | [] => ([], Ok (Finished parsed_items))
  | (step_name, step_data) :: steps' =>
      let func := func step_data in
      let args := match args step_data with Some a => a | None => Args [] end in
      let readable_value_name := readable_value_name step_data in
      match process_one_step step_name parsed_items func (Some args)
              readable_value_name with
      | Raise e => ([], Raise e)
      | Ok parsed_items =>
          match parsed_items !! step_name with
          | None =>
              ([Discarded parsed_items], Ok (Returned (discard_items parsed_items)))
          | Some _ =>
              let '(events, exit) := for_steps steps' parsed_items in
              (Stored step_name parsed_items :: events, exit)
          end
      end
  end.

Definition process_prompt_events (prompt : string) : list event * result dict :=
  let parsed_items : dict :=
    <["prompt" := VStr prompt]> (<["success" := VBool false]> ∅) in
  let '(events, exit) := for_steps nlp_recipe parsed_items in
  match exit with
  | Raise e => (events, Raise e)
  | Ok (Returned result) => (events, Ok result)
  | Ok (Finished parsed_items) =>
      let parsed_items := <["success" := VBool true]> parsed_items in
      match NLPField.parse_amount parsed_items with
      | Raise e => (events, Raise e)
      | Ok parsed_items =>
          let events := (events ++ [Discarded parsed_items])%list in
          let parsed_items := discard_items parsed_items in
          (events,
           answer ← on_success parsed_items;
           Ok (<["answer" := VStr answer]> parsed_items))
      end
  end.

Definition process_prompt (prompt : string) : result dict :=
  (process_prompt_events prompt).2.

End methods.

End NLPStructuralField.

(** ** The dispatcher ([NLPAgent]) *)

Module NLPAgent.

(** What the dispatcher uses of a field object. *)
Record field : Type := {
  found_inside : string -> result bool;
  field_process_prompt : string -> result dict
}.

(** The agent: [self.fields]. *)
Record t : Type := {
  fields : list field
}.

Section methods.

Variable nlp_models : NLPModels.t.

(** [NLPField] itself has no [process_prompt]: on the MEP field, which is
    of the base class, the call raises [AttributeError]. *)
Definition setup_fields : list field :=
  let structural :=
    {| found_inside := NLPField.found_inside nlp_models "structural" [];
       field_process_prompt := NLPStructuralField.process_prompt nlp_models |} in
  let mep :=
    {| found_inside :=
         NLPField.found_inside nlp_models "MEP"
           ["mechanical"; "electrical"; "plumbing"; "fire protection"];
       field_process_prompt := fun _ => Raise (AttributeError "process_prompt") |} in
  [structural; mep].

Definition post_init : t := {| fields := setup_fields |}.

Fixpoint for_fields (fields : list field) (prompt : string) : result (option dict) :=
  match fields with
  | [] => Ok None
  | field :: fields' =>
      b ← found_inside field prompt;
      if b : bool then Some <$> field_process_prompt field prompt
      else for_fields fields' prompt
  end.

Definition process_prompt (self : t) (prompt : string) : result (option dict) :=
  b ← NLPModelsHelper.zero_shot nlp_models prompt "request";
  if negb b then
    let answer := "Please, a request must be placed." in
    Ok (Some (<["answer" := VStr answer]> (<["success" := VBool false]> ∅)))
  else for_fields (fields self) prompt.

End methods.

End NLPAgent.

(** ** The summary as the specification words it

    The phrases of the four stages element, element name, direction and
    number with unit, in this order; the summary is the phrases up to the
    first stage with a missing key. *)




(** ** Fixed pipelines for the scenarios

    A classifier and a question answerer with canned outputs for the prompt
    of the end-to-end scenario.  [relevance] gives the score of a
    single-label query, [name_answer] the answer to the question about the
    name of the beam. *)

Module Scenario.

Definition prompt : string := "Please, lower by 0.2 m the height of beam B125".

Definition zero_shot (relevance : string -> Q) (text : string)
    (candidate_labels : list string) : NLPModels.zero_shot_output :=
  match candidate_labels with
  | [label] =>
      {| NLPModels.labels := [label]; NLPModels.scores := [relevance label] |}
  | _ =>
      {| NLPModels.labels := candidate_labels;
         NLPModels.scores :=
           map (fun label =>
                  if String.eqb label "beam" || String.eqb label "down"
                  then (9 # 10)%Q else (1 # 100)%Q)
               candidate_labels |}
  end.

Definition question_answerer (name_answer : string) (question context : string)
  : string :=
  if String.eqb question "Which is the name of the beam?" then name_answer
  else if String.eqb question "What should we do with the beam B125?"
  then "lower by 0.2 m the height"
  else if String.eqb question "To where?" then "down"
  else if String.eqb question "By how much?" then "0.2 m"
  else "".

Definition models (relevance : string -> Q) (name_answer : string) : NLPModels.t :=
  {| NLPModels.zero_shot := zero_shot relevance;
     NLPModels.question_answerer := question_answerer name_answer |}.

(** Every label is relevant; no label is; only "request" is; only "request"
    and "electrical" are. *)
Definition relevant (label : string) : Q := 9 # 10.
Definition irrelevant (label : string) : Q := 1 # 10.
Definition request_only (label : string) : Q :=
  if String.eqb label "request" then 9 # 10 else 1 # 10.
Definition request_electrical (label : string) : Q :=
  if String.eqb label "request" || String.eqb label "electrical"
  then 9 # 10 else 1 # 10.

(** The floats of the examples, as binary64 numbers. *)
Definition f_0_2 : spec_float := S754_finite false 7205759403792794 (-55).
Definition f_1_0 : spec_float := S754_finite false 4503599627370496 (-52).
Definition f_m3_5 : spec_float := S754_finite true 7881299347898368 (-51).
Definition f_5_0 : spec_float := S754_finite false 5629499534213120 (-50).


End Scenario.

(** * Properties *)

(** ** Amount parsing *)

(** The floats of the examples are the binary64 numbers Python writes as
    [0.2], [1.0], [-3.5] and [5.0]; the last three are exact. *)
Lemma scenario_floats :
  Float.of_str "0.2" = Ok Scenario.f_0_2
  /\ Float.repr Scenario.f_0_2 = "0.2"
  /\ Float.repr Scenario.f_1_0 = "1.0"
  /\ Float.repr Scenario.f_m3_5 = "-3.5"
  /\ Float.repr Scenario.f_5_0 = "5.0"
  /\ (float_value Scenario.f_1_0 == 1)%Q
  /\ (float_value Scenario.f_m3_5 == - (7 # 2))%Q
  /\ (float_value Scenario.f_5_0 == 5)%Q.
Proof. vm_compute. repeat split; reflexivity. Qed.

(** C4. [amount_breakdown] on the five examples: ["0.2m"] gives (0.2, "m"),
    ["1 m"] gives (1.0, "m"), ["-3.5ft"] gives (-3.5, "ft"), ["5"] gives
    (5.0, "m") by the default unit, and ["one meter"], which has letters but
    no digit, gives [None]. *)
Theorem amount_breakdown_examples :
  NLPField.amount_breakdown "0.2m" = Ok (Some (Scenario.f_0_2, "m"))
  /\ NLPField.amount_breakdown "1 m" = Ok (Some (Scenario.f_1_0, "m"))
  /\ NLPField.amount_breakdown "-3.5ft" = Ok (Some (Scenario.f_m3_5, "ft"))
  /\ NLPField.amount_breakdown "5" = Ok (Some (Scenario.f_5_0, "m"))
  /\ NLPField.amount_breakdown "one meter" = Ok None
  /\ Re.findall "one meter" = []
  /\ existsb Py.isalpha (Py.chars "one meter") = true.
Proof. vm_compute. repeat split; reflexivity. Qed.

(** ** The element name *)


Lemma element_name_cases (nlp_models : NLPModels.t) (prompt element : string) :
  let name :=
    NLPModels.question_answerer nlp_models
      ("Which is the name of the " +:+ element +:+ "?") prompt in
  NLPField.element_name nlp_models prompt element =
    if String.eqb name "" then Ok None
    else match Py.split name with
         | first :: _ => Ok (Some first)
         | [] => Raise IndexError
         end.
Proof. reflexivity. Qed.



(** ** The capability adapter *)

Lemma gt_true (a b : Q) : NLPModelsHelper.gt a b = true <-> (b < a)%Q.
Proof.
  unfold NLPModelsHelper.gt. rewrite negb_true_iff, <- not_true_iff_false, Qle_bool_iff.
  split; [apply Qnot_le_lt | apply Qlt_not_le].
Qed.

Lemma gt_false (a b : Q) : NLPModelsHelper.gt a b = false <-> (a <= b)%Q.
Proof.
  unfold NLPModelsHelper.gt. rewrite negb_false_iff. apply Qle_bool_iff.
Qed.

(** A position [r] of [l] holds a greatest element, and the first one. *)
Definition first_greatest (l : list Q) (r : nat) : Prop :=
  exists s, l !! r = Some s
    /\ forall j s', l !! j = Some s' -> (s' <= s)%Q /\ (j < r -> (s' < s)%Q).

Lemma idxmax_from_spec (l : list Q) :
  forall (pre : list Q) (best_i : nat) (best : Q),
    pre !! best_i = Some best ->
    (forall j s', pre !! j = Some s' -> (s' <= best)%Q /\ (j < best_i -> (s' < best)%Q)) ->
    first_greatest (pre ++ l)
      (NLPModelsHelper.idxmax_from (length pre) best_i best l).
Proof.
  induction l as [|s l IH]; intros pre best_i best Hbest Hmax; simpl.
  - rewrite app_nil_r. exists best. split; assumption.
  - assert (Hlt : best_i < length pre) by (eapply lookup_lt_Some; eassumption).
    replace (pre ++ s :: l) with ((pre ++ [s]) ++ l) by (rewrite <- app_assoc; reflexivity).
    replace (S (length pre)) with (length (pre ++ [s])) by (rewrite length_app; simpl; lia).
    destruct (NLPModelsHelper.gt s best) eqn:Hgt.
    + apply gt_true in Hgt.
      apply IH.
      * rewrite lookup_app_r by lia. rewrite Nat.sub_diag. reflexivity.
      * intros j s' Hj. destruct (decide (j < length pre)) as [Hjl|Hjl].
        -- rewrite lookup_app_l in Hj by assumption.
           destruct (Hmax _ _ Hj) as [Hle _].
           split; [apply Qlt_le_weak|intros _]; eapply Qle_lt_trans; eassumption.
        -- rewrite lookup_app_r in Hj by lia.
           destruct (j - length pre) as [|k] eqn:Hk; simpl in Hj; [|discriminate].
           injection Hj as <-. split; [apply Qle_refl|lia].
    + apply gt_false in Hgt. apply IH.
      * rewrite lookup_app_l by assumption. assumption.
      * intros j s' Hj. destruct (decide (j < length pre)) as [Hjl|Hjl].
        -- rewrite lookup_app_l in Hj by assumption. apply Hmax; assumption.
        -- rewrite lookup_app_r in Hj by lia.
           destruct (j - length pre) as [|k] eqn:Hk; simpl in Hj; [|discriminate].
           injection Hj as <-. split; [assumption|lia].
Qed.

Lemma idxmax_spec (l : list Q) (r : nat) :
  NLPModelsHelper.idxmax l = Ok r -> first_greatest l r.
Proof.
  destruct l as [|s l]; simpl; [discriminate|].
  intros [= <-]. apply (idxmax_from_spec l [s] 0 s); [reflexivity|].
  intros [|j] s' Hj; simpl in Hj; [|discriminate].
  injection Hj as <-. split; [apply Qle_refl|lia].
Qed.

(** [zero_shot_multiple] returns the label at the first greatest score of
    the classifier's answer. *)
Lemma zero_shot_multiple_spec (nlp_models : NLPModels.t) (prompt : string)
    (candidate_labels : list string) (label : string) :
  NLPModelsHelper.zero_shot_multiple nlp_models prompt candidate_labels = Ok label ->
  let df := NLPModels.zero_shot nlp_models prompt candidate_labels in
  exists i, NLPModels.labels df !! i = Some label
    /\ first_greatest (NLPModels.scores df) i.
Proof.
  intros H df. unfold NLPModelsHelper.zero_shot_multiple in H. fold df in H.
  destruct (negb _); [discriminate|].
  destruct (NLPModelsHelper.idxmax (NLPModels.scores df)) as [i|e] eqn:Hi;
    simpl in H; [|discriminate].
  exists i. split; [|apply idxmax_spec, Hi].
  destruct (NLPModels.labels df !! i); congruence.
Qed.

(** [zero_shot_multiple] answers whenever the classifier gives as many
    scores as labels, and at least one. *)
Lemma zero_shot_multiple_total (nlp_models : NLPModels.t) (prompt : string)
    (candidate_labels : list string) :
  let df := NLPModels.zero_shot nlp_models prompt candidate_labels in
  length (NLPModels.labels df) = length (NLPModels.scores df) ->
  NLPModels.scores df <> [] ->
  exists label,
    NLPModelsHelper.zero_shot_multiple nlp_models prompt candidate_labels = Ok label.
Proof.
  intros df Hlen Hne. unfold NLPModelsHelper.zero_shot_multiple. fold df.
  rewrite Hlen, Nat.eqb_refl. simpl.
  destruct (NLPModelsHelper.idxmax (NLPModels.scores df)) as [i|e] eqn:Hi.
  - destruct (idxmax_spec _ _ Hi) as (s & Hs & _).
    apply lookup_lt_Some in Hs. rewrite <- Hlen in Hs.
    destruct (lookup_lt_is_Some_2 _ _ Hs) as [label Hl].
    exists label. simpl. rewrite Hl. reflexivity.
  - destruct (NLPModels.scores df); [contradiction|discriminate].
Qed.

(** ** The element step *)

(** C8. [which_element] asks the classifier for the labels wall, slab, beam
    and column, takes the label with the first greatest score, and returns
    it only when that label passes the relevance check against the prompt
    on its own; when the check fails it returns [None]. *)
Theorem which_element_argmax_then_relevance
    (nlp_models : NLPModels.t) (prompt : string) (candidate : string) :
  NLPModelsHelper.zero_shot_multiple nlp_models prompt
    NLPStructuralField.elements = Ok candidate ->
  let df := NLPModels.zero_shot nlp_models prompt ["wall"; "slab"; "beam"; "column"] in
  (exists i, NLPModels.labels df !! i = Some candidate
     /\ first_greatest (NLPModels.scores df) i)
  /\ (NLPModelsHelper.zero_shot nlp_models prompt candidate = Ok true ->
      NLPField.which_element nlp_models NLPStructuralField.elements prompt
        = Ok (Some candidate))
  /\ (NLPModelsHelper.zero_shot nlp_models prompt candidate = Ok false ->
      NLPField.which_element nlp_models NLPStructuralField.elements prompt
        = Ok None).
Proof.
  intros Hc df. split; [|split].
  - apply (zero_shot_multiple_spec _ _ _ _ Hc).
  - intros Hr. unfold NLPField.which_element. rewrite Hc. simpl. rewrite Hr. reflexivity.
  - intros Hr. unfold NLPField.which_element. rewrite Hc. simpl. rewrite Hr. reflexivity.
Qed.

(** ** The dispatcher *)



(** The MEP field is of the base class: when it is the one that matches,
    the call of its [process_prompt] raises. *)
Example agent_routes_to_mep :
  NLPAgent.process_prompt (Scenario.models Scenario.request_electrical "B125")
    (NLPAgent.post_init (Scenario.models Scenario.request_electrical "B125"))
    Scenario.prompt
  = Raise (AttributeError "process_prompt").
Proof. reflexivity. Qed.

(** ** The summary *)

Lemma append_cons (c : ascii) (s1 s2 : string) :
  String c s1 +:+ s2 = String c (s1 +:+ s2).
Proof. reflexivity. Qed.

Lemma append_assoc (s1 s2 s3 : string) : (s1 +:+ s2) +:+ s3 = s1 +:+ s2 +:+ s3.
Proof.
  induction s1 as [|c s1 IH]; [reflexivity|].
  rewrite !append_cons, IH. reflexivity.
Qed.

Lemma append_empty_r (s : string) : s +:+ "" = s.
Proof.
  induction s as [|c s IH]; [reflexivity|].
  rewrite append_cons, IH. reflexivity.
Qed.




(** ** The recipe engine *)

Lemma bind_Ok {A B : Type} (m : result A) (f : A -> result B) (b : B) :
  m ≫= f = Ok b -> exists a, m = Ok a /\ f a = Ok b.
Proof. destruct m as [a|e]; simpl; [eauto|discriminate]. Qed.

(** A step that returns either stores its value under its name, or adds the
    answer of the failure. *)
Lemma process_one_step_inv (value_name : string) (parsed_items : dict)
    (func : list value -> result (option value))
    (args : option NLPStructuralField.args_spec)
    (readable_value_name : option string) (parsed_items' : dict) :
  NLPStructuralField.process_one_step value_name parsed_items func args
    readable_value_name = Ok parsed_items' ->
  (exists v, parsed_items' = <[value_name := v]> parsed_items)
  \/ (exists a, parsed_items' = <["answer" := VStr a]> parsed_items).
Proof.
  unfold NLPStructuralField.process_one_step.
  intros (vs & _ & H)%bind_Ok.
  apply bind_Ok in H as ([v|] & _ & H).
  - left. exists v. congruence.
  - right. apply bind_Ok in H as (a & _ & H). exists a. congruence.
Qed.

Lemma process_one_step_dom (value_name : string) (parsed_items : dict)
    (func : list value -> result (option value))
    (args : option NLPStructuralField.args_spec)
    (readable_value_name : option string) (parsed_items' : dict) :
  NLPStructuralField.process_one_step value_name parsed_items func args
    readable_value_name = Ok parsed_items' ->
  dom parsed_items ⊆ dom parsed_items' /\ size parsed_items <= size parsed_items'.
Proof.
  intros [[v ->]|[a ->]]%process_one_step_inv;
    (split; [rewrite dom_insert_L; set_solver|]).
  - destruct (parsed_items !! value_name) eqn:Hk.
    + rewrite map_size_insert_Some; [lia|eauto].
    + rewrite map_size_insert_None; [lia|assumption].
  - destruct (parsed_items !! "answer") eqn:Hk.
    + rewrite map_size_insert_Some; [lia|eauto].
    + rewrite map_size_insert_None; [lia|assumption].
Qed.

Lemma which_element_argmax_then_relevance_witness :
  NLPField.which_element (Scenario.models Scenario.relevant "B125")
    NLPStructuralField.elements Scenario.prompt = Ok (Some "beam")
  /\ NLPField.which_element (Scenario.models Scenario.irrelevant "B125")
       NLPStructuralField.elements Scenario.prompt = Ok None.
Proof.
  split.
  - pose proof (which_element_argmax_then_relevance
                  (Scenario.models Scenario.relevant "B125") Scenario.prompt "beam"
                  eq_refl) as (_ & H & _).
    apply H. reflexivity.
  - pose proof (which_element_argmax_then_relevance
                  (Scenario.models Scenario.irrelevant "B125") Scenario.prompt "beam"
                  eq_refl) as (_ & _ & H).
    apply H. reflexivity.
Defined.

(** The names a step reads, as [process_prompt] hands them over. *)
Definition arg_names (step_data : NLPStructuralField.step_data) : list string :=
  match NLPStructuralField.args step_data with
  | Some (NLPStructuralField.Args l) => l
  | Some (NLPStructuralField.Arg a) => [a]
  | None => []
  end.

Definition fail_answer (item summary : string) : string :=
  "Hey! I understood " +:+ summary +:+ ". However, I could not understand which "
    +:+ item +:+ " you are talking about. "
    +:+ "Would you mind to rephrase it in a clear way for me and try again? Thanks in advance!".

Definition readable_name (step_name : string)
    (step_data : NLPStructuralField.step_data) : string :=
  match NLPStructuralField.readable_value_name step_data with
  | Some readable => readable
  | None => step_name
  end.

Lemma on_fail_Some (item : string) (parsed_items : dict) (s : string) :
  NLPStructuralField.summary parsed_items = Ok s ->
  NLPStructuralField.on_fail item (Some parsed_items) = Ok (fail_answer item s).
Proof.
  intros Hs. unfold NLPStructuralField.on_fail, NLPField.on_fail, fail_answer.
  rewrite Hs. simpl. rewrite !append_assoc. reflexivity.
Qed.

Lemma for_steps_resolved (step_name : string)
    (step_data : NLPStructuralField.step_data)
    (steps : list (string * NLPStructuralField.step_data))
    (parsed_items : dict) (vs : list value) (v : value) :
  mapM (NLPStructuralField.getitem parsed_items) (arg_names step_data) = Ok vs ->
  NLPStructuralField.func step_data vs = Ok (Some v) ->
  NLPStructuralField.for_steps ((step_name, step_data) :: steps) parsed_items
  = (NLPStructuralField.Stored step_name (<[step_name := v]> parsed_items)
       :: (NLPStructuralField.for_steps steps (<[step_name := v]> parsed_items)).1,
     (NLPStructuralField.for_steps steps (<[step_name := v]> parsed_items)).2).
Proof.
  intros Hargs Hfunc. simpl. unfold NLPStructuralField.process_one_step.
  replace (mapM _ _) with (Ok (A:=list value) vs).
  2: { rewrite <- Hargs. unfold arg_names.
       destruct (NLPStructuralField.args step_data) as [[a|l]|]; reflexivity. }
  simpl. rewrite Hfunc. simpl. rewrite lookup_insert_eq.
  destruct (NLPStructuralField.for_steps steps _). reflexivity.
Qed.

Lemma for_steps_unresolved (step_name : string)
    (step_data : NLPStructuralField.step_data)
    (steps : list (string * NLPStructuralField.step_data))
    (parsed_items : dict) (vs : list value) (s : string) :
  mapM (NLPStructuralField.getitem parsed_items) (arg_names step_data) = Ok vs ->
  NLPStructuralField.func step_data vs = Ok None ->
  NLPStructuralField.summary parsed_items = Ok s ->
  parsed_items !! step_name = None ->
  step_name <> "answer" ->
  let failed :=
    <["answer" := VStr (fail_answer (readable_name step_name step_data) s)]>
      parsed_items in
  NLPStructuralField.for_steps ((step_name, step_data) :: steps) parsed_items
  = ([NLPStructuralField.Discarded failed],
     Ok (NLPStructuralField.Returned (NLPStructuralField.discard_items failed))).
Proof.
  intros Hargs Hfunc Hsum Hfresh Hne failed. simpl.
  unfold NLPStructuralField.process_one_step.
  replace (mapM _ _) with (Ok (A:=list value) vs).
  2: { rewrite <- Hargs. unfold arg_names.
       destruct (NLPStructuralField.args step_data) as [[a|l]|]; reflexivity. }
  simpl. rewrite Hfunc. simpl.
  rewrite (on_fail_Some _ _ _ Hsum). simpl.
  fold (readable_name step_name step_data). fold failed.
  unfold failed at 1. rewrite lookup_insert_ne by congruence. rewrite Hfresh.
  reflexivity.
Qed.

(** One resolved step of a run: [vs] are the values of the slots the step
    reads, [v] the value it stores. *)
Ltac resolved_step name vs v :=
  rewrite (for_steps_resolved name _ _ _ vs v); [| reflexivity | simpl ].

(** ** The end-to-end scenario *)

(** C1. For the prompt "Please, lower by 0.2 m the height of beam B125",
    with pipelines for which the steps give element "beam", element name
    "B125", action "lower by 0.2 m the height", overall direction "down",
    direction "down" and amount "0.2 m", [process_prompt] of the structural
    field returns exactly success [True], element "beam", element_name
    "B125", direction "down", number 0.2, unit "m" and the answer
    "Hey! Perfect, I understood that a beam named B125 is requested to be
    moved down by 0.2 m. Doing my job now!". *)
Theorem process_prompt_end_to_end (nlp_models : NLPModels.t) :
  NLPField.which_element nlp_models NLPStructuralField.elements Scenario.prompt
    = Ok (Some "beam") ->
  NLPField.element_name nlp_models Scenario.prompt "beam" = Ok (Some "B125") ->
  NLPField.action nlp_models Scenario.prompt "beam" "B125"
    = "lower by 0.2 m the height" ->
  NLPField.overall_direction nlp_models Scenario.prompt = "down" ->
  NLPField.direction nlp_models NLPStructuralField.directions "down" = Ok "down" ->
  NLPField.amount nlp_models "lower by 0.2 m the height" = "0.2 m" ->
  NLPStructuralField.process_prompt nlp_models Scenario.prompt
  = Ok (<["answer" := VStr "Hey! Perfect, I understood that a beam named B125 is requested to be moved down by 0.2 m. Doing my job now!"]>
       (<["unit" := VStr "m"]>
       (<["number" := VFloat Scenario.f_0_2]>
       (<["direction" := VStr "down"]>
       (<["element_name" := VStr "B125"]>
       (<["element" := VStr "beam"]>
       (<["success" := VBool true]> ∅))))))).
Proof.
  intros Helement Hname Haction Hoverall Hdirection Hamount.
  unfold NLPStructuralField.process_prompt, NLPStructuralField.process_prompt_events,
    NLPStructuralField.nlp_recipe.
  resolved_step "element" [VStr Scenario.prompt] (VStr "beam").
  2: { rewrite Helement. reflexivity. }
  resolved_step "element_name" [VStr Scenario.prompt; VStr "beam"] (VStr "B125").
  2: { rewrite Hname. reflexivity. }
  resolved_step "action" [VStr Scenario.prompt; VStr "beam"; VStr "B125"]
    (VStr "lower by 0.2 m the height").
  2: { rewrite Haction. reflexivity. }
  resolved_step "overall_direction" [VStr Scenario.prompt] (VStr "down").
  2: { rewrite Hoverall. reflexivity. }
  resolved_step "direction" [VStr "down"] (VStr "down").
  2: { rewrite Hdirection. reflexivity. }
  resolved_step "amount" [VStr "lower by 0.2 m the height"] (VStr "0.2 m").
  2: { rewrite Hamount. reflexivity. }
  resolved_step "number_unit" [VStr "0.2 m"] (VTuple (VFloat Scenario.f_0_2) (VStr "m")).
  2: { reflexivity. }
  reflexivity.
Qed.

Lemma process_prompt_end_to_end_witness :
  NLPStructuralField.process_prompt (Scenario.models Scenario.relevant "B125")
    Scenario.prompt
  = Ok (<["answer" := VStr "Hey! Perfect, I understood that a beam named B125 is requested to be moved down by 0.2 m. Doing my job now!"]>
       (<["unit" := VStr "m"]>
       (<["number" := VFloat Scenario.f_0_2]>
       (<["direction" := VStr "down"]>
       (<["element_name" := VStr "B125"]>
       (<["element" := VStr "beam"]>
       (<["success" := VBool true]> ∅))))))).
Proof.
  apply (process_prompt_end_to_end (Scenario.models Scenario.relevant "B125"));
    reflexivity.
Defined.

(** ** The early failures *)

Ltac unresolved_step name vs s :=
  rewrite (for_steps_unresolved name _ _ _ vs s);
  [| reflexivity | simpl | reflexivity | reflexivity | discriminate ].

(** The result of the early-failure scenario. *)
Definition early_failure_result : dict :=
  <["answer" := VStr "Hey! I understood a beam. However, I could not understand which element_name you are talking about. Would you mind to rephrase it in a clear way for me and try again? Thanks in advance!"]>
    (<["element" := VStr "beam"]> (<["success" := VBool false]> ∅)).

(** C2, amended. For the prompt of the scenario, with the element resolved
    to "beam" and the empty answer to the question about the name,
    [process_prompt] returns success [False], the element, and the answer
    "Hey! I understood a beam. However, I could not understand which
    element_name you are talking about. " followed by the request to
    rephrase; the mapping has none of the keys element_name, direction,
    number, unit. *)
Theorem process_prompt_early_failure (nlp_models : NLPModels.t) :
  NLPField.which_element nlp_models NLPStructuralField.elements Scenario.prompt
    = Ok (Some "beam") ->
  NLPModels.question_answerer nlp_models "Which is the name of the beam?"
    Scenario.prompt = "" ->
  NLPStructuralField.process_prompt nlp_models Scenario.prompt
    = Ok early_failure_result
  /\ early_failure_result !! "success" = Some (VBool false)
  /\ early_failure_result !! "element_name" = None
  /\ early_failure_result !! "direction" = None
  /\ early_failure_result !! "number" = None
  /\ early_failure_result !! "unit" = None.
Proof.
  intros Helement Hanswer. split; [|repeat split].
  unfold NLPStructuralField.process_prompt, NLPStructuralField.process_prompt_events,
    NLPStructuralField.nlp_recipe.
  resolved_step "element" [VStr Scenario.prompt] (VStr "beam").
  2: { rewrite Helement. reflexivity. }
  unresolved_step "element_name" [VStr Scenario.prompt; VStr "beam"] "a beam".
  2: { rewrite element_name_cases. simpl.
       change (NLPModels.question_answerer nlp_models
                 ("Which is the name of the " +:+ "beam" +:+ "?") Scenario.prompt = "")
         in Hanswer.
       rewrite Hanswer. reflexivity. }
  reflexivity.
Qed.

Lemma process_prompt_early_failure_witness :
  NLPStructuralField.process_prompt (Scenario.models Scenario.relevant "")
    Scenario.prompt = Ok early_failure_result.
Proof.
  apply (process_prompt_early_failure (Scenario.models Scenario.relevant ""));
    reflexivity.
Defined.

(** In the early-failure scenario the answer does not open with "Sorry, ":
    a slot is already there, and the answer tells it. *)
Lemma early_failure_answer_not_sorry :
  exists result answer,
    NLPStructuralField.process_prompt (Scenario.models Scenario.relevant "")
      Scenario.prompt = Ok result
    /\ result !! "answer" = Some (VStr answer)
    /\ String.prefix "Sorry, " answer = false
    /\ answer <> "Sorry, I could not understand which element_name you are talking about. Would you mind to rephrase it in a clear way for me and try again? Thanks in advance!".
Proof.
  eexists _, _. split; [reflexivity|]. split; [reflexivity|].
  split; [reflexivity|discriminate].
Qed.

(** C5, on the code. When the first step, the element, is unresolved,
    nothing has been extracted, and yet the answer is not the plain one:
    it opens with "Hey! I understood . However, ", the narrative of an
    empty summary.  The plain opening "Sorry, " of [on_fail] is for
    [parsed_items = None], which [process_one_step] never passes. *)
Theorem first_step_failure_answer (nlp_models : NLPModels.t) (prompt : string) :
  NLPField.which_element nlp_models NLPStructuralField.elements prompt = Ok None ->
  NLPStructuralField.process_prompt nlp_models prompt
  = Ok (<["answer" := VStr "Hey! I understood . However, I could not understand which element you are talking about. Would you mind to rephrase it in a clear way for me and try again? Thanks in advance!"]>
         (<["success" := VBool false]> ∅)).
Proof.
  intros Helement.
  unfold NLPStructuralField.process_prompt, NLPStructuralField.process_prompt_events,
    NLPStructuralField.nlp_recipe.
  unresolved_step "element" [VStr prompt] "".
  2: { rewrite Helement. reflexivity. }
  reflexivity.
Qed.

Lemma first_step_failure_answer_witness :
  NLPStructuralField.process_prompt (Scenario.models Scenario.irrelevant "B125")
    Scenario.prompt
  = Ok (<["answer" := VStr "Hey! I understood . However, I could not understand which element you are talking about. Would you mind to rephrase it in a clear way for me and try again? Thanks in advance!"]>
         (<["success" := VBool false]> ∅)).
Proof.
  apply (first_step_failure_answer (Scenario.models Scenario.irrelevant "B125")).
  reflexivity.
Defined.

(** What [on_fail] answers when it is given no slot set. *)
Example on_fail_without_slots :
  NLPStructuralField.on_fail "element" None
  = Ok "Sorry, I could not understand which element you are talking about. Would you mind to rephrase it in a clear way for me and try again? Thanks in advance!".
Proof. reflexivity. Qed.

(** ** Growth of the slot set and the single discard *)

(** The slot sets of the [Stored] events of a run, in order. *)
Fixpoint snapshots (events : list NLPStructuralField.event) : list dict :=
  match events with
  | NLPStructuralField.Stored _ parsed_items :: events' =>
      parsed_items :: snapshots events'
  | NLPStructuralField.Discarded _ :: events' => snapshots events'
  | [] => []
  end.

Definition is_stored (e : NLPStructuralField.event) : bool :=
  match e with
  | NLPStructuralField.Stored _ _ => true
  | NLPStructuralField.Discarded _ => false
  end.

(** No key is lost and the size does not shrink. *)
Definition slots_le (before after : dict) : Prop :=
  size before <= size after /\ dom before ⊆ dom after.

Lemma for_steps_events (steps : list (string * NLPStructuralField.step_data)) :
  forall parsed_items : dict,
  exists stored tail,
    (NLPStructuralField.for_steps steps parsed_items).1 = stored ++ tail
    /\ forallb is_stored stored = true
    /\ Sorted slots_le (parsed_items :: snapshots stored)
    /\ match (NLPStructuralField.for_steps steps parsed_items).2 with
       | Ok (NLPStructuralField.Returned result) =>
           exists final, tail = [NLPStructuralField.Discarded final]
             /\ result = NLPStructuralField.discard_items final
       | Ok (NLPStructuralField.Finished _) => tail = []
       | Raise _ => tail = []
       end.
Proof.
  induction steps as [|[step_name step_data] steps IH]; intros parsed_items; simpl.
  - exists [], []. repeat split; repeat constructor.
  - destruct (NLPStructuralField.process_one_step _ _ _ _ _) as [items'|e] eqn:Hstep.
    2: { exists [], []. repeat split; repeat constructor. }
    destruct (items' !! step_name) as [v|] eqn:Hlookup.
    + destruct (IH items') as (stored & tail & Hev & Hst & Hsorted & Hexit).
      destruct (NLPStructuralField.for_steps steps items') as [events exit].
      simpl in *. subst events.
      exists (NLPStructuralField.Stored step_name items' :: stored), tail.
      repeat split; [assumption| |assumption].
      simpl. constructor; [assumption|]. constructor.
      apply process_one_step_dom in Hstep as [Hdom Hsize]. split; assumption.
    + exists [], [NLPStructuralField.Discarded items']. simpl.
      repeat split; repeat constructor. exists items'. split; reflexivity.
Qed.

(** C9. In every run of [process_prompt] of the structural field, the slot
    sets seen after the resolved steps, from the initial one on, never lose
    a key and never shrink in size; the run calls [discard_items] at most
    once, after the last of them, and exactly once whenever it returns a
    result. *)
Theorem slots_grow_and_one_discard (nlp_models : NLPModels.t) (prompt : string) :
  let run := NLPStructuralField.process_prompt_events nlp_models prompt in
  let initial : dict := <["prompt" := VStr prompt]> (<["success" := VBool false]> ∅) in
  exists stored tail,
    run.1 = stored ++ tail
    /\ forallb is_stored stored = true
    /\ Sorted slots_le (initial :: snapshots stored)
    /\ Sorted le (map size (initial :: snapshots stored))
    /\ (tail = [] \/ exists final, tail = [NLPStructuralField.Discarded final])
    /\ (forall result,
          NLPStructuralField.process_prompt nlp_models prompt = Ok result ->
          exists final, tail = [NLPStructuralField.Discarded final]).
Proof.
  intros run initial.
  assert (Hsizes : forall l : list dict, Sorted slots_le l -> Sorted le (map size l)).
  { induction 1 as [|m l Hl IH Hhd]; simpl; constructor; [assumption|].
    destruct Hhd as [|m' l' [Hsize _]]; simpl; constructor. exact Hsize. }
  unfold NLPStructuralField.process_prompt. fold run.
  subst run. unfold NLPStructuralField.process_prompt_events. fold initial.
  destruct (for_steps_events (NLPStructuralField.nlp_recipe nlp_models) initial)
    as (stored & tail & Hev & Hst & Hsorted & Hexit).
  destruct (NLPStructuralField.for_steps _ initial) as [events exit].
  simpl in Hev, Hexit. subst events.
  pose proof (Hsizes _ Hsorted) as Hsz. simpl in Hsz.
  destruct exit as [[result|parsed_items]|e]; simpl.
  - destruct Hexit as (final & -> & _).
    exists stored, [NLPStructuralField.Discarded final].
    repeat split; eauto.
  - subst tail. rewrite app_nil_r.
    destruct (NLPField.parse_amount _) as [parsed_items'|e]; simpl.
    + exists stored, [NLPStructuralField.Discarded parsed_items'].
      repeat split; eauto.
    + exists stored, []. rewrite app_nil_r.
      repeat split; eauto. discriminate.
  - subst tail. exists stored, [].
    repeat split; eauto. discriminate.
Qed.

Lemma slots_grow_and_one_discard_witness :
  exists stored final,
    (NLPStructuralField.process_prompt_events
       (Scenario.models Scenario.relevant "B125") Scenario.prompt).1
    = stored ++ [NLPStructuralField.Discarded final]
    /\ forallb is_stored stored = true.
Proof.
  destruct (slots_grow_and_one_discard (Scenario.models Scenario.relevant "B125")
              Scenario.prompt)
    as (stored & tail & Hev & Hst & _ & _ & _ & Hone).
  assert (Hrun : exists result,
             NLPStructuralField.process_prompt
               (Scenario.models Scenario.relevant "B125") Scenario.prompt = Ok result)
    by (eexists; reflexivity).
  destruct Hrun as (result & Hrun).
  destruct (Hone result Hrun) as (final & ->).
  exists stored, final. split; assumption.
Defined.

(** * Further properties of the code *)

(** ** [discard_items] *)

Lemma discard_items_lookup (discard : list string) (parsed_items : dict) (key : string) :
  NLPField.discard_items discard parsed_items !! key
  = if decide (key ∈ discard) then None else parsed_items !! key.
Proof.
  unfold NLPField.discard_items. apply option_eq. intros v.
  rewrite map_lookup_filter_Some. simpl.
  destruct (decide (key ∈ discard)) as [Hin|Hout]; [split; [tauto|discriminate]|tauto].
Qed.

(** X1. [discard_items] removes the names of [parsed_items_to_discard]
    and nothing else: a discarded name is absent from its result, every
    other key keeps its value; discarding twice is discarding once, and the
    result is never larger than the slot set. *)
Theorem discard_items_frame (discard : list string) (parsed_items : dict) :
  (forall key, key ∈ discard ->
     NLPField.discard_items discard parsed_items !! key = None)
  /\ (forall key, key ∉ discard ->
        NLPField.discard_items discard parsed_items !! key = parsed_items !! key)
  /\ NLPField.discard_items discard (NLPField.discard_items discard parsed_items)
     = NLPField.discard_items discard parsed_items
  /\ size (NLPField.discard_items discard parsed_items) <= size parsed_items.
Proof.
  split; [|split; [|split]].
  - intros key Hin. rewrite discard_items_lookup.
    destruct (decide (key ∈ discard)); [reflexivity|contradiction].
  - intros key Hout. rewrite discard_items_lookup.
    destruct (decide (key ∈ discard)); [contradiction|reflexivity].
  - apply map_eq. intros key. rewrite !discard_items_lookup.
    destruct (decide (key ∈ discard)); reflexivity.
  - apply map_subseteq_size. unfold NLPField.discard_items. apply map_filter_subseteq.
Qed.

Lemma discard_items_frame_witness :
  NLPStructuralField.discard_items
    (<["amount" := VStr "0.2 m"]> (<["element" := VStr "beam"]> ∅)) !! "amount" = None
  /\ NLPStructuralField.discard_items
       (<["amount" := VStr "0.2 m"]> (<["element" := VStr "beam"]> ∅)) !! "element"
     = Some (VStr "beam").
Proof.
  destruct (discard_items_frame NLPStructuralField.parsed_items_to_discard
              (<["amount" := VStr "0.2 m"]> (<["element" := VStr "beam"]> ∅)))
    as (Hin & Hout & _).
  split.
  - apply Hin. unfold NLPStructuralField.parsed_items_to_discard.
    rewrite !elem_of_cons. auto 10.
  - rewrite Hout; [reflexivity|].
    unfold NLPStructuralField.parsed_items_to_discard.
    rewrite !elem_of_cons, elem_of_nil. intros H.
    repeat (destruct H as [H|H]; [discriminate|]). exact H.
Defined.

(** ** [parse_amount] *)

(** X2. [parse_amount] raises [KeyError] when the slot number_unit is
    missing; on a (number, unit) pair it stores the two under number and
    unit and leaves every other slot, number_unit included, as it was. *)
Theorem parse_amount_cases (parsed_items : dict) :
  (parsed_items !! "number_unit" = None ->
   NLPField.parse_amount parsed_items = Raise (KeyError "number_unit"))
  /\ (forall number unit,
        parsed_items !! "number_unit" = Some (VTuple number unit) ->
        exists parsed_items',
          NLPField.parse_amount parsed_items = Ok parsed_items'
          /\ parsed_items' !! "number" = Some number
          /\ parsed_items' !! "unit" = Some unit
          /\ parsed_items' !! "number_unit" = Some (VTuple number unit)
          /\ forall key, key <> "number" -> key <> "unit" ->
               parsed_items' !! key = parsed_items !! key).
Proof.
  unfold NLPField.parse_amount. split.
  - intros ->. reflexivity.
  - intros number unit Hnu. rewrite Hnu. eexists. split; [reflexivity|].
    split; [|split; [|split]].
    + rewrite lookup_insert_ne by discriminate. apply lookup_insert_eq.
    + apply lookup_insert_eq.
    + rewrite !lookup_insert_ne by discriminate. exact Hnu.
    + intros key Hn Hu. rewrite !lookup_insert_ne by congruence. reflexivity.
Qed.

Lemma parse_amount_cases_witness :
  NLPField.parse_amount (<["success" := VBool true]> ∅)
  = Raise (KeyError "number_unit")
  /\ exists parsed_items',
       NLPField.parse_amount
         (<["number_unit" := VTuple (VFloat Scenario.f_0_2) (VStr "m")]> ∅)
       = Ok parsed_items'
       /\ parsed_items' !! "number" = Some (VFloat Scenario.f_0_2).
Proof.
  split.
  - apply (parse_amount_cases (<["success" := VBool true]> ∅)). reflexivity.
  - destruct (parse_amount_cases
                (<["number_unit" := VTuple (VFloat Scenario.f_0_2) (VStr "m")]> ∅))
      as (_ & H).
    destruct (H (VFloat Scenario.f_0_2) (VStr "m") eq_refl)
      as (parsed_items' & Hrun & Hnumber & _).
    exists parsed_items'. split; assumption.
Defined.

(** ** [process_one_step] *)

Lemma getitem_Some (parsed_items : dict) (key : string) (v : value) :
  parsed_items !! key = Some v -> NLPStructuralField.getitem parsed_items key = Ok v.
Proof. unfold NLPStructuralField.getitem. intros ->. reflexivity. Qed.

Lemma getitem_None (parsed_items : dict) (key : string) :
  parsed_items !! key = None ->
  NLPStructuralField.getitem parsed_items key = Raise (KeyError key).
Proof. unfold NLPStructuralField.getitem. intros ->. reflexivity. Qed.

Lemma mapM_getitem_missing (parsed_items : dict) (found : list string)
    (arg : string) (rest : list string) :
  Forall (fun a => is_Some (parsed_items !! a)) found ->
  parsed_items !! arg = None ->
  mapM (NLPStructuralField.getitem parsed_items) (found ++ arg :: rest)
  = Raise (KeyError arg).
Proof.
  intros Hfound Hmissing.
  induction Hfound as [|a found [v Hv] _ IH]; simpl.
  - rewrite (getitem_None _ _ Hmissing). reflexivity.
  - rewrite (getitem_Some _ _ _ Hv). simpl. rewrite IH. reflexivity.
Qed.

(** The names an argument declaration stands for. *)
Definition args_list (args : NLPStructuralField.args_spec) : list string :=
  match args with
  | NLPStructuralField.Args l => l
  | NLPStructuralField.Arg a => [a]
  end.

(** X3. A step whose argument names are not all in the slot set raises
    [KeyError] with the first missing name, before its extractor is
    called: the outcome is the same for every extractor. *)
Theorem process_one_step_missing_argument (value_name : string) (parsed_items : dict)
    (func : list value -> result (option value))
    (args : NLPStructuralField.args_spec)
    (found : list string) (arg : string) (rest : list string)
    (readable_value_name : option string) :
  args_list args = found ++ arg :: rest ->
  Forall (fun a => is_Some (parsed_items !! a)) found ->
  parsed_items !! arg = None ->
  NLPStructuralField.process_one_step value_name parsed_items func
    (Some args) readable_value_name
  = Raise (KeyError arg).
Proof.
  intros Hargs Hfound Hmissing. unfold NLPStructuralField.process_one_step.
  fold (args_list args). rewrite Hargs.
  rewrite mapM_getitem_missing by assumption. reflexivity.
Qed.

Lemma process_one_step_missing_argument_witness :
  NLPStructuralField.process_one_step "direction"
    (<["prompt" := VStr Scenario.prompt]> (<["success" := VBool false]> ∅))
    (fun _ => Ok (Some (VStr "down")))
    (Some (NLPStructuralField.Args ["prompt"; "overall_direction"])) None
  = Raise (KeyError "overall_direction").
Proof.
  apply (process_one_step_missing_argument "direction"
           (<["prompt" := VStr Scenario.prompt]> (<["success" := VBool false]> ∅))
           (fun _ => Ok (Some (VStr "down")))
           (NLPStructuralField.Args ["prompt"; "overall_direction"])
           ["prompt"] "overall_direction" [] None).
  - reflexivity.
  - repeat constructor. exists (VStr Scenario.prompt). reflexivity.
  - reflexivity.
Defined.

(** X4. A step that returns changes no slot but its own and the answer:
    it either stores a value under its name or, unresolved, adds the
    answer; no key is lost, and the slot set does not shrink. *)
Theorem process_one_step_frame (value_name : string) (parsed_items : dict)
    (func : list value -> result (option value))
    (args : option NLPStructuralField.args_spec)
    (readable_value_name : option string) (parsed_items' : dict) :
  NLPStructuralField.process_one_step value_name parsed_items func args
    readable_value_name = Ok parsed_items' ->
  (is_Some (parsed_items' !! value_name) \/ is_Some (parsed_items' !! "answer"))
  /\ (forall key, key <> value_name -> key <> "answer" ->
        parsed_items' !! key = parsed_items !! key)
  /\ dom parsed_items ⊆ dom parsed_items'
  /\ size parsed_items <= size parsed_items'.
Proof.
  intros Hstep. split; [|split].
  - apply process_one_step_inv in Hstep as [[v ->]|[a ->]];
      [left|right]; rewrite lookup_insert_eq; eauto.
  - intros key Hname Hanswer.
    apply process_one_step_inv in Hstep as [[v ->]|[a ->]];
      rewrite lookup_insert_ne by congruence; reflexivity.
  - apply process_one_step_dom in Hstep. exact Hstep.
Qed.

Lemma process_one_step_frame_witness :
  exists parsed_items',
    NLPStructuralField.process_one_step "amount"
      (<["action" := VStr "lower"]> (<["success" := VBool false]> ∅))
      (fun _ => Ok (Some (VStr "0.2 m"))) (Some (NLPStructuralField.Arg "action")) None
    = Ok parsed_items'
    /\ parsed_items' !! "success" = Some (VBool false).
Proof.
  assert (Hrun :
    NLPStructuralField.process_one_step "amount"
      (<["action" := VStr "lower"]> (<["success" := VBool false]> ∅))
      (fun _ => Ok (Some (VStr "0.2 m"))) (Some (NLPStructuralField.Arg "action")) None
    = Ok (<["amount" := VStr "0.2 m"]>
            (<["action" := VStr "lower"]> (<["success" := VBool false]> ∅))))
    by reflexivity.
  eexists. split; [exact Hrun|].
  destruct (process_one_step_frame _ _ _ _ _ _ Hrun) as (_ & Hframe & _).
  rewrite Hframe by discriminate. reflexivity.
Defined.

(** ** [found_inside] *)

Lemma found_inside_others_first (nlp_models : NLPModels.t) (prompt : string)
    (before : list string) (n : string) (after : list string) (r : result bool) :
  Forall (fun a => NLPModelsHelper.zero_shot nlp_models prompt a = Ok false) before ->
  NLPModelsHelper.zero_shot nlp_models prompt n = r ->
  r <> Ok false ->
  NLPField.found_inside_others nlp_models (before ++ n :: after) prompt
  = match r with Ok _ => Ok true | Raise e => Raise e end.
Proof.
  intros Hbefore Hn Hr. induction Hbefore as [|a before Ha _ IH]; simpl.
  - rewrite Hn. destruct r as [[|]|e]; [reflexivity|contradiction|reflexivity].
  - rewrite Ha. simpl. exact IH.
Qed.

Lemma found_inside_others_none (nlp_models : NLPModels.t) (prompt : string)
    (names : list string) :
  Forall (fun a => NLPModelsHelper.zero_shot nlp_models prompt a = Ok false) names ->
  NLPField.found_inside_others nlp_models names prompt = Ok false.
Proof.
  induction 1 as [|a names Ha _ IH]; simpl; [reflexivity|].
  rewrite Ha. simpl. exact IH.
Qed.

Lemma found_inside_as_others (nlp_models : NLPModels.t) (name : string)
    (other_names : list string) (prompt : string) :
  NLPField.found_inside nlp_models name other_names prompt
  = NLPField.found_inside_others nlp_models (name :: other_names) prompt.
Proof. reflexivity. Qed.

(** X5. [found_inside] tries the name of the field and then its other
    names, in order, and stops at the first that is relevant: it is true
    when some name is relevant and all names before it are not, whatever
    the names after it would give; it is false when no name is relevant;
    and it raises what the first check that raises does, when the names
    before it are not relevant. *)
Theorem found_inside_first_relevant (nlp_models : NLPModels.t) (name : string)
    (other_names : list string) (prompt : string) :
  (forall before n after,
     name :: other_names = before ++ n :: after ->
     Forall (fun a => NLPModelsHelper.zero_shot nlp_models prompt a = Ok false) before ->
     NLPModelsHelper.zero_shot nlp_models prompt n = Ok true ->
     NLPField.found_inside nlp_models name other_names prompt = Ok true)
  /\ (Forall (fun a => NLPModelsHelper.zero_shot nlp_models prompt a = Ok false)
        (name :: other_names) ->
      NLPField.found_inside nlp_models name other_names prompt = Ok false)
  /\ (forall before n after e,
        name :: other_names = before ++ n :: after ->
        Forall (fun a => NLPModelsHelper.zero_shot nlp_models prompt a = Ok false) before ->
        NLPModelsHelper.zero_shot nlp_models prompt n = Raise e ->
        NLPField.found_inside nlp_models name other_names prompt = Raise e).
Proof.
  rewrite found_inside_as_others. split; [|split].
  - intros before n after -> Hbefore Hn.
    rewrite (found_inside_others_first _ _ _ _ _ (Ok true)); auto; discriminate.
  - apply found_inside_others_none.
  - intros before n after e -> Hbefore Hn.
    rewrite (found_inside_others_first _ _ _ _ _ (Raise e)); auto; discriminate.
Qed.

Lemma found_inside_first_relevant_witness :
  NLPField.found_inside (Scenario.models Scenario.request_electrical "B125") "MEP"
    ["mechanical"; "electrical"; "plumbing"; "fire protection"] Scenario.prompt
  = Ok true
  /\ NLPField.found_inside (Scenario.models Scenario.request_only "B125") "MEP"
       ["mechanical"; "electrical"; "plumbing"; "fire protection"] Scenario.prompt
     = Ok false.
Proof.
  split.
  - destruct (found_inside_first_relevant
                (Scenario.models Scenario.request_electrical "B125") "MEP"
                ["mechanical"; "electrical"; "plumbing"; "fire protection"]
                Scenario.prompt) as (H & _).
    apply (H ["MEP"; "mechanical"] "electrical" ["plumbing"; "fire protection"]);
      [reflexivity|repeat constructor|reflexivity].
  - apply (found_inside_first_relevant
             (Scenario.models Scenario.request_only "B125") "MEP"
             ["mechanical"; "electrical"; "plumbing"; "fire protection"]
             Scenario.prompt).
    repeat constructor.
Defined.

(** ** [zero_shot_multiple] *)

(** X6. When [zero_shot_multiple] returns a label, it is the label the
    classifier gave at the position of the greatest score; among equal
    greatest scores the first position is taken. *)
Theorem zero_shot_multiple_first_greatest (nlp_models : NLPModels.t)
    (prompt : string) (candidate_labels : list string) (label : string) :
  NLPModelsHelper.zero_shot_multiple nlp_models prompt candidate_labels = Ok label ->
  exists i s,
    NLPModels.labels (NLPModels.zero_shot nlp_models prompt candidate_labels) !! i
      = Some label
    /\ NLPModels.scores (NLPModels.zero_shot nlp_models prompt candidate_labels) !! i
       = Some s
    /\ (forall j s',
          NLPModels.scores (NLPModels.zero_shot nlp_models prompt candidate_labels) !! j
            = Some s' ->
          (s' <= s)%Q)
    /\ (forall j s',
          NLPModels.scores (NLPModels.zero_shot nlp_models prompt candidate_labels) !! j
            = Some s' ->
          j < i -> (s' < s)%Q).
Proof.
  intros H. apply zero_shot_multiple_spec in H as (i & Hlabel & s & Hs & Hmax).
  exists i, s. repeat split; [assumption|assumption| |].
  - intros j s' Hj. apply (Hmax j s' Hj).
  - intros j s' Hj. apply (Hmax j s' Hj).
Qed.

Lemma zero_shot_multiple_first_greatest_witness :
  exists i,
    NLPModels.labels
      (NLPModels.zero_shot (Scenario.models Scenario.relevant "B125") Scenario.prompt
         NLPStructuralField.elements) !! i = Some "beam".
Proof.
  destruct (zero_shot_multiple_first_greatest
              (Scenario.models Scenario.relevant "B125") Scenario.prompt
              NLPStructuralField.elements "beam" eq_refl)
    as (i & s & Hlabel & _).
  exists i. exact Hlabel.
Defined.

(** X7. [zero_shot_multiple] returns a label, one of the classifier's,
    exactly when the classifier gives as many scores as labels and at least
    one; otherwise it raises [ValueError]. *)
Theorem zero_shot_multiple_returns (nlp_models : NLPModels.t)
    (prompt : string) (candidate_labels : list string) :
  let df := NLPModels.zero_shot nlp_models prompt candidate_labels in
  (length (NLPModels.labels df) = length (NLPModels.scores df) ->
   NLPModels.scores df <> [] ->
   exists label,
     NLPModelsHelper.zero_shot_multiple nlp_models prompt candidate_labels = Ok label
     /\ label ∈ NLPModels.labels df)
  /\ (length (NLPModels.labels df) <> length (NLPModels.scores df)
      \/ NLPModels.scores df = [] ->
      NLPModelsHelper.zero_shot_multiple nlp_models prompt candidate_labels
      = Raise ValueError).
Proof.
  intros df. split.
  - intros Hlen Hne.
    destruct (zero_shot_multiple_total nlp_models prompt candidate_labels Hlen Hne)
      as (label & Hlabel).
    exists label. split; [exact Hlabel|].
    apply zero_shot_multiple_spec in Hlabel as (i & Hi & _).
    apply list_elem_of_lookup. exists i. exact Hi.
  - unfold NLPModelsHelper.zero_shot_multiple. fold df.
    destruct (Nat.eqb_spec (length (NLPModels.labels df))
                (length (NLPModels.scores df))) as [Heq|Hneq]; simpl.
    + intros [Hlen| ->]; [contradiction|]. reflexivity.
    + reflexivity.
Qed.

Lemma zero_shot_multiple_returns_witness :
  (exists label,
     NLPModelsHelper.zero_shot_multiple (Scenario.models Scenario.relevant "B125")
       Scenario.prompt NLPStructuralField.directions = Ok label
     /\ label ∈ NLPStructuralField.directions)
  /\ NLPModelsHelper.zero_shot_multiple (Scenario.models Scenario.relevant "B125")
       Scenario.prompt [] = Raise ValueError.
Proof.
  split.
  - apply (zero_shot_multiple_returns (Scenario.models Scenario.relevant "B125")
             Scenario.prompt NLPStructuralField.directions);
      [reflexivity|discriminate].
  - apply (zero_shot_multiple_returns (Scenario.models Scenario.relevant "B125")
             Scenario.prompt []).
    right. reflexivity.
Defined.

(** ** The agent and its two fields *)

Lemma structural_found_inside (nlp_models : NLPModels.t) (prompt : string) :
  NLPField.found_inside nlp_models "structural" [] prompt
  = NLPModelsHelper.zero_shot nlp_models prompt "structural".
Proof.
  unfold NLPField.found_inside.
  destruct (NLPModelsHelper.zero_shot nlp_models prompt "structural") as [[|]|e];
    reflexivity.
Qed.

(** X8. The agent, with the fields [setup_fields] gives it, never returns
    a result for the MEP field.  A mapping it returns is either the
    rejection of a prompt that is no request, or the result of the
    structural field for a prompt relevant to "structural"; and when the
    prompt is a request, is not structural and matches the MEP field, the
    call raises [AttributeError], the MEP field being a plain [NLPField]
    without [process_prompt]. *)
Theorem agent_never_answers_mep (nlp_models : NLPModels.t) (prompt : string) :
  (forall result,
     NLPAgent.process_prompt nlp_models (NLPAgent.post_init nlp_models) prompt
       = Ok (Some result) ->
     (NLPModelsHelper.zero_shot nlp_models prompt "request" = Ok false
      /\ result = <["answer" := VStr "Please, a request must be placed."]>
                    (<["success" := VBool false]> ∅))
     \/ (NLPModelsHelper.zero_shot nlp_models prompt "request" = Ok true
         /\ NLPModelsHelper.zero_shot nlp_models prompt "structural" = Ok true
         /\ NLPStructuralField.process_prompt nlp_models prompt = Ok result))
  /\ (NLPModelsHelper.zero_shot nlp_models prompt "request" = Ok true ->
      NLPModelsHelper.zero_shot nlp_models prompt "structural" = Ok false ->
      NLPField.found_inside nlp_models "MEP"
        ["mechanical"; "electrical"; "plumbing"; "fire protection"] prompt = Ok true ->
      NLPAgent.process_prompt nlp_models (NLPAgent.post_init nlp_models) prompt
      = Raise (AttributeError "process_prompt")).
Proof.
  unfold NLPAgent.process_prompt, NLPAgent.post_init, NLPAgent.setup_fields. simpl.
  rewrite structural_found_inside. split.
  - intros result.
    destruct (NLPModelsHelper.zero_shot nlp_models prompt "request") as [[|]|e];
      simpl; [| |discriminate].
    + destruct (NLPModelsHelper.zero_shot nlp_models prompt "structural") as [[|]|e];
        simpl; [| |discriminate].
      * destruct (NLPStructuralField.process_prompt nlp_models prompt) as [r|e];
          simpl; [|discriminate].
        intros [= ->]. right. auto.
      * destruct (NLPField.found_inside nlp_models "MEP" _ prompt) as [[|]|e];
          simpl; discriminate.
    + intros [= <-]. left. auto.
  - intros -> -> ->. reflexivity.
Qed.

Lemma agent_never_answers_mep_witness :
  NLPAgent.process_prompt (Scenario.models Scenario.request_electrical "B125")
    (NLPAgent.post_init (Scenario.models Scenario.request_electrical "B125"))
    Scenario.prompt
  = Raise (AttributeError "process_prompt").
Proof.
  apply (agent_never_answers_mep (Scenario.models Scenario.request_electrical "B125")
           Scenario.prompt); reflexivity.
Defined.

(** ** The first token of the name *)






(** ** The whole run of the structural field *)

Lemma for_steps_raises (step_name : string)
    (step_data : NLPStructuralField.step_data)
    (steps : list (string * NLPStructuralField.step_data))
    (parsed_items : dict) (vs : list value) (e : exn) :
  mapM (NLPStructuralField.getitem parsed_items) (arg_names step_data) = Ok vs ->
  NLPStructuralField.func step_data vs = Raise e ->
  NLPStructuralField.for_steps ((step_name, step_data) :: steps) parsed_items
  = ([], Raise e).
Proof.
  intros Hargs Hfunc. simpl. unfold NLPStructuralField.process_one_step.
  replace (mapM _ _) with (Ok (A:=list value) vs).
  2: { rewrite <- Hargs. unfold arg_names.
       destruct (NLPStructuralField.args step_data) as [[a|l]|]; reflexivity. }
  simpl. rewrite Hfunc. reflexivity.
Qed.

Ltac raising_step name vs e :=
  rewrite (for_steps_raises name _ _ _ vs e); [| reflexivity | simpl ].

Definition success_answer (summary : string) : string :=
  "Hey! Perfect, I understood that " +:+ summary +:+ ". Doing my job now!".

(** The summaries of the slot sets a run goes through. *)
Definition summary_2 (element name : string) : string :=
  "a " +:+ element +:+ " named " +:+ name.
Definition summary_3 (element name direction : string) : string :=
  "a " +:+ element +:+ " named " +:+ name
    +:+ " is requested to be moved " +:+ direction.
Definition summary_4 (element name direction : string) (x : spec_float)
    (unit : string) : string :=
  "a " +:+ element +:+ " named " +:+ name
    +:+ " is requested to be moved " +:+ direction
    +:+ " by " +:+ Float.repr x +:+ " " +:+ unit.

Lemma summary_4_eq (element name direction : string) (x : spec_float) (unit : string) :
  (((("" +:+ "a " +:+ element) +:+ " named " +:+ name)
      +:+ " is requested to be moved " +:+ direction)
     +:+ " by " +:+ Float.repr x +:+ " " +:+ unit)
  = summary_4 element name direction x unit.
Proof. unfold summary_4. rewrite !append_assoc. reflexivity. Qed.

Lemma summary_3_eq (element name direction : string) :
  ((("" +:+ "a " +:+ element) +:+ " named " +:+ name)
     +:+ " is requested to be moved " +:+ direction)
  = summary_3 element name direction.
Proof. unfold summary_3. rewrite !append_assoc. reflexivity. Qed.

(** The run of the engine over the recipe, step by step: the outcome of
    [process_prompt] in terms of the four extractors that can fail. *)
Lemma process_prompt_unfold (nlp_models : NLPModels.t) (prompt : string) :
  NLPStructuralField.process_prompt nlp_models prompt
  = match NLPField.which_element nlp_models NLPStructuralField.elements prompt with
    | Raise e => Raise e
    | Ok None =>
        Ok (<["answer" := VStr (fail_answer "element" "")]>
              (<["success" := VBool false]> ∅))
    | Ok (Some element) =>
        match NLPField.element_name nlp_models prompt element with
        | Raise e => Raise e
        | Ok None =>
            Ok (<["answer" := VStr (fail_answer "element_name" ("a " +:+ element))]>
                  (<["element" := VStr element]> (<["success" := VBool false]> ∅)))
        | Ok (Some name) =>
            match NLPField.direction nlp_models NLPStructuralField.directions
                    (NLPField.overall_direction nlp_models prompt) with
            | Raise e => Raise e
            | Ok direction =>
                match NLPField.amount_breakdown
                        (NLPField.amount nlp_models
                           (NLPField.action nlp_models prompt element name)) with
                | Raise e => Raise e
                | Ok None =>
                    Ok (<["answer" :=
                            VStr (fail_answer "amount" (summary_3 element name direction))]>
                          (<["direction" := VStr direction]>
                             (<["element_name" := VStr name]>
                                (<["element" := VStr element]>
                                   (<["success" := VBool false]> ∅)))))
                | Ok (Some (x, unit)) =>
                    Ok (<["answer" :=
                            VStr (success_answer (summary_4 element name direction x unit))]>
                          (<["unit" := VStr unit]>
                             (<["number" := VFloat x]>
                                (<["direction" := VStr direction]>
                                   (<["element_name" := VStr name]>
                                      (<["element" := VStr element]>
                                         (<["success" := VBool true]> ∅)))))))
                end
            end
        end
    end.
Proof.
  unfold NLPStructuralField.process_prompt, NLPStructuralField.process_prompt_events,
    NLPStructuralField.nlp_recipe.
  destruct (NLPField.which_element nlp_models NLPStructuralField.elements prompt)
    as [[element|]|e] eqn:Helement.
  3: { raising_step "element" [VStr prompt] e; [reflexivity|].
       rewrite Helement. reflexivity. }
  2: { unresolved_step "element" [VStr prompt] "".
       2: { rewrite Helement. reflexivity. }
       reflexivity. }
  resolved_step "element" [VStr prompt] (VStr element).
  2: { rewrite Helement. reflexivity. }
  destruct (NLPField.element_name nlp_models prompt element) as [[name|]|e] eqn:Hname.
  3: { raising_step "element_name" [VStr prompt; VStr element] e; [reflexivity|].
       rewrite Hname. reflexivity. }
  2: { unresolved_step "element_name" [VStr prompt; VStr element] ("a " +:+ element).
       2: { rewrite Hname. reflexivity. }
       reflexivity. }
  resolved_step "element_name" [VStr prompt; VStr element] (VStr name).
  2: { rewrite Hname. reflexivity. }
  resolved_step "action" [VStr prompt; VStr element; VStr name]
    (VStr (NLPField.action nlp_models prompt element name)).
  2: { reflexivity. }
  resolved_step "overall_direction" [VStr prompt]
    (VStr (NLPField.overall_direction nlp_models prompt)).
  2: { reflexivity. }
  destruct (NLPField.direction nlp_models NLPStructuralField.directions
              (NLPField.overall_direction nlp_models prompt)) as [direction|e] eqn:Hdir.
  2: { raising_step "direction" [VStr (NLPField.overall_direction nlp_models prompt)] e;
         [reflexivity|].
       rewrite Hdir. reflexivity. }
  resolved_step "direction" [VStr (NLPField.overall_direction nlp_models prompt)]
    (VStr direction).
  2: { rewrite Hdir. reflexivity. }
  resolved_step "amount" [VStr (NLPField.action nlp_models prompt element name)]
    (VStr (NLPField.amount nlp_models (NLPField.action nlp_models prompt element name))).
  2: { reflexivity. }
  destruct (NLPField.amount_breakdown
              (NLPField.amount nlp_models
                 (NLPField.action nlp_models prompt element name)))
    as [[[x unit]|]|e] eqn:Hbreak.
  3: { raising_step "number_unit"
         [VStr (NLPField.amount nlp_models
                  (NLPField.action nlp_models prompt element name))] e;
         [reflexivity|].
       rewrite Hbreak. reflexivity. }
  2: { unresolved_step "number_unit"
         [VStr (NLPField.amount nlp_models
                  (NLPField.action nlp_models prompt element name))]
         ((("" +:+ "a " +:+ element) +:+ " named " +:+ name)
            +:+ " is requested to be moved " +:+ direction).
       2: { rewrite Hbreak. reflexivity. }
       rewrite summary_3_eq. reflexivity. }
  resolved_step "number_unit"
    [VStr (NLPField.amount nlp_models
             (NLPField.action nlp_models prompt element name))]
    (VTuple (VFloat x) (VStr unit)).
  2: { rewrite Hbreak. reflexivity. }
  rewrite <- summary_4_eq.
  reflexivity.
Qed.

(** X10. When the element, the element name, the direction and the
    (number, unit) pair are all resolved, [process_prompt] returns success
    [True], these five slots, and the answer that tells them in one
    sentence; the answers to the action, overall direction and amount
    questions are used on the way and are not in the result. *)
Theorem process_prompt_success (nlp_models : NLPModels.t) (prompt : string)
    (element name direction unit : string) (x : spec_float) :
  NLPField.which_element nlp_models NLPStructuralField.elements prompt
    = Ok (Some element) ->
  NLPField.element_name nlp_models prompt element = Ok (Some name) ->
  NLPField.direction nlp_models NLPStructuralField.directions
    (NLPField.overall_direction nlp_models prompt) = Ok direction ->
  NLPField.amount_breakdown
    (NLPField.amount nlp_models (NLPField.action nlp_models prompt element name))
    = Ok (Some (x, unit)) ->
  NLPStructuralField.process_prompt nlp_models prompt
  = Ok (<["answer" :=
            VStr ("Hey! Perfect, I understood that a " +:+ element +:+ " named "
                    +:+ name +:+ " is requested to be moved " +:+ direction
                    +:+ " by " +:+ Float.repr x +:+ " " +:+ unit
                    +:+ ". Doing my job now!")]>
          (<["unit" := VStr unit]>
             (<["number" := VFloat x]>
                (<["direction" := VStr direction]>
                   (<["element_name" := VStr name]>
                      (<["element" := VStr element]>
                         (<["success" := VBool true]> ∅))))))).
Proof.
  intros Helement Hname Hdirection Hbreak.
  rewrite process_prompt_unfold, Helement, Hname, Hdirection, Hbreak.
  unfold success_answer, summary_4. rewrite !append_assoc. reflexivity.
Qed.

Lemma process_prompt_success_witness :
  exists result,
    NLPStructuralField.process_prompt (Scenario.models Scenario.relevant "B125 beam")
      Scenario.prompt = Ok result
    /\ result !! "element_name" = Some (VStr "B125")
    /\ result !! "action" = None.
Proof.
  eexists. split; [|split].
  - apply (process_prompt_success (Scenario.models Scenario.relevant "B125 beam")
             Scenario.prompt "beam" "B125" "down" "m" Scenario.f_0_2);
      reflexivity.
  - reflexivity.
  - reflexivity.
Defined.

(** X11. The results of a run that stops at an unresolved step.  Only the
    element name and the (number, unit) pair can be unresolved after the
    element: the result then has success [False], the slots resolved so far
    without the intermediate ones, and an answer that tells them and names
    the missing item, "element_name" or "amount". *)
Theorem process_prompt_unresolved (nlp_models : NLPModels.t) (prompt : string)
    (element : string) :
  NLPField.which_element nlp_models NLPStructuralField.elements prompt
    = Ok (Some element) ->
  (NLPField.element_name nlp_models prompt element = Ok None ->
   NLPStructuralField.process_prompt nlp_models prompt
   = Ok (<["answer" :=
             VStr ("Hey! I understood a " +:+ element
                     +:+ ". However, I could not understand which element_name you are talking about. Would you mind to rephrase it in a clear way for me and try again? Thanks in advance!")]>
           (<["element" := VStr element]> (<["success" := VBool false]> ∅))))
  /\ (forall name direction,
        NLPField.element_name nlp_models prompt element = Ok (Some name) ->
        NLPField.direction nlp_models NLPStructuralField.directions
          (NLPField.overall_direction nlp_models prompt) = Ok direction ->
        NLPField.amount_breakdown
          (NLPField.amount nlp_models (NLPField.action nlp_models prompt element name))
          = Ok None ->
        NLPStructuralField.process_prompt nlp_models prompt
        = Ok (<["answer" :=
                  VStr ("Hey! I understood a " +:+ element +:+ " named " +:+ name
                          +:+ " is requested to be moved " +:+ direction
                          +:+ ". However, I could not understand which amount you are talking about. Would you mind to rephrase it in a clear way for me and try again? Thanks in advance!")]>
                (<["direction" := VStr direction]>
                   (<["element_name" := VStr name]>
                      (<["element" := VStr element]>
                         (<["success" := VBool false]> ∅)))))).
Proof.
  intros Helement. split.
  - intros Hname. rewrite process_prompt_unfold, Helement, Hname.
    unfold fail_answer. rewrite !append_assoc. reflexivity.
  - intros name direction Hname Hdirection Hbreak.
    rewrite process_prompt_unfold, Helement, Hname, Hdirection, Hbreak.
    unfold fail_answer, summary_3. rewrite !append_assoc. reflexivity.
Qed.

Lemma process_prompt_unresolved_witness :
  NLPStructuralField.process_prompt (Scenario.models Scenario.relevant "")
    Scenario.prompt
  = Ok (<["answer" :=
            VStr ("Hey! I understood a " +:+ "beam"
                    +:+ ". However, I could not understand which element_name you are talking about. Would you mind to rephrase it in a clear way for me and try again? Thanks in advance!")]>
          (<["element" := VStr "beam"]> (<["success" := VBool false]> ∅))).
Proof.
  destruct (process_prompt_unresolved (Scenario.models Scenario.relevant "")
              Scenario.prompt "beam" eq_refl) as (H & _).
  apply H. reflexivity.
Defined.

(** ** What a run can raise *)

Lemma zero_shot_raises (nlp_models : NLPModels.t) (prompt label : string) (e : exn) :
  NLPModelsHelper.zero_shot nlp_models prompt label = Raise e -> e = IndexError.
Proof.
  unfold NLPModelsHelper.zero_shot.
  destruct (NLPModels.scores _); [|discriminate]. congruence.
Qed.

Lemma zero_shot_multiple_raises (nlp_models : NLPModels.t) (prompt : string)
    (candidate_labels : list string) (e : exn) :
  NLPModelsHelper.zero_shot_multiple nlp_models prompt candidate_labels = Raise e ->
  e = IndexError \/ e = ValueError.
Proof.
  unfold NLPModelsHelper.zero_shot_multiple.
  destruct (negb _); [intros [= <-]; auto|].
  destruct (NLPModelsHelper.idxmax _) as [i|e'] eqn:Hi; simpl.
  - destruct (NLPModels.labels _ !! i); [discriminate|]. intros [= <-]. auto.
  - destruct (NLPModels.scores _); [|discriminate].
    simpl in Hi. injection Hi as <-. intros [= <-]. auto.
Qed.

Lemma which_element_raises (nlp_models : NLPModels.t) (prompt : string) (e : exn) :
  NLPField.which_element nlp_models NLPStructuralField.elements prompt = Raise e ->
  e = IndexError \/ e = ValueError.
Proof.
  unfold NLPField.which_element.
  destruct (NLPModelsHelper.zero_shot_multiple _ _ _) as [c|e'] eqn:Hc; simpl.
  - destruct (NLPModelsHelper.zero_shot _ _ _) as [b|e'] eqn:Hb; simpl; [discriminate|].
    intros [= <-]. left. eapply zero_shot_raises, Hb.
  - intros [= <-]. eapply zero_shot_multiple_raises, Hc.
Qed.

Lemma element_name_raises (nlp_models : NLPModels.t) (prompt element : string) (e : exn) :
  NLPField.element_name nlp_models prompt element = Raise e -> e = IndexError.
Proof.
  rewrite element_name_cases.
  destruct (String.eqb _ _); [discriminate|].
  destruct (Py.split _); [|discriminate]. congruence.
Qed.

Lemma of_str_raises (s : string) (e : exn) :
  Float.of_str s = Raise e -> e = ValueError.
Proof.
  unfold Float.of_str.
  repeat match goal with
         | |- context [let '(_, _) := ?p in _] => destruct p
         | |- context [match ?x with _ => _ end] => destruct x
         end;
    try discriminate; congruence.
Qed.

Lemma amount_breakdown_raises (amount : string) (e : exn) :
  NLPField.amount_breakdown amount = Raise e -> e = ValueError.
Proof.
  unfold NLPField.amount_breakdown.
  destruct (Re.findall amount) as [|number l]; [discriminate|].
  destruct (Float.of_str number) as [x|e'] eqn:Hx; simpl; [discriminate|].
  intros [= <-]. eapply of_str_raises, Hx.
Qed.

(** X12. The recipe engine raises nothing of its own: the arguments of
    every step are found, and neither the summary nor [parse_amount]
    fails.  A run of [process_prompt] raises exactly when one of
    [which_element], [element_name], [direction] and [amount_breakdown]
    raises, the steps before it being resolved, and it raises that
    exception; so it never raises [KeyError], [TypeError] or
    [AttributeError]. *)
Theorem process_prompt_raises (nlp_models : NLPModels.t) (prompt : string) (e : exn) :
  (NLPStructuralField.process_prompt nlp_models prompt = Raise e <->
   NLPField.which_element nlp_models NLPStructuralField.elements prompt = Raise e
   \/ exists element,
        NLPField.which_element nlp_models NLPStructuralField.elements prompt
          = Ok (Some element)
        /\ (NLPField.element_name nlp_models prompt element = Raise e
            \/ exists name,
                 NLPField.element_name nlp_models prompt element = Ok (Some name)
                 /\ (NLPField.direction nlp_models NLPStructuralField.directions
                       (NLPField.overall_direction nlp_models prompt) = Raise e
                     \/ exists direction,
                          NLPField.direction nlp_models NLPStructuralField.directions
                            (NLPField.overall_direction nlp_models prompt)
                            = Ok direction
                          /\ NLPField.amount_breakdown
                               (NLPField.amount nlp_models
                                  (NLPField.action nlp_models prompt element name))
                             = Raise e)))
  /\ (NLPStructuralField.process_prompt nlp_models prompt = Raise e ->
      e = IndexError \/ e = ValueError).
Proof.
  rewrite process_prompt_unfold.
  destruct (NLPField.which_element nlp_models NLPStructuralField.elements prompt)
    as [[element|]|e1] eqn:Helement.
  3: { split; [|intros [= <-]; eapply which_element_raises, Helement].
       split; [intros [= <-]; auto|].
       intros [H|(x & H & _)]; congruence. }
  2: { split; [|discriminate].
       split; [discriminate|]. intros [H|(x & H & _)]; discriminate. }
  destruct (NLPField.element_name nlp_models prompt element) as [[name|]|e2] eqn:Hname.
  3: { split; [|intros [= <-]; left; eapply element_name_raises, Hname].
       split; [intros [= <-]; eauto 6|].
       intros [H|(x & [= <-] & [H|(y & H & _)])]; congruence. }
  2: { split; [|discriminate].
       split; [discriminate|].
       intros [H|(x & [= <-] & [H|(y & H & _)])]; congruence. }
  destruct (NLPField.direction nlp_models NLPStructuralField.directions
              (NLPField.overall_direction nlp_models prompt)) as [direction|e3] eqn:Hdir.
  2: { split; [|intros [= <-]; eapply zero_shot_multiple_raises, Hdir].
       split; [intros [= <-]; eauto 10|].
       intros [H|(x & [= <-] & [H|(y & Hy & [H|(z & H & _)])])]; congruence. }
  destruct (NLPField.amount_breakdown
              (NLPField.amount nlp_models
                 (NLPField.action nlp_models prompt element name)))
    as [[[x unit]|]|e4] eqn:Hbreak.
  3: { split; [|intros [= <-]; right; eapply amount_breakdown_raises, Hbreak].
       split; [intros [= <-]; eauto 12|].
       intros [H|(a & [= <-] & [H|(b & Hb & [H|(c & Hc & H)])])]; congruence. }
  all: split; [|discriminate]; split; [discriminate|];
    intros [H|(a & [= <-] & [H|(b & Hb & [H|(c & Hc & H)])])]; congruence.
Qed.

Lemma process_prompt_raises_witness :
  NLPStructuralField.process_prompt (Scenario.models Scenario.relevant "   ")
    Scenario.prompt = Raise IndexError.
Proof.
  apply (process_prompt_raises (Scenario.models Scenario.relevant "   ")
           Scenario.prompt IndexError).
  right. exists "beam". split; [reflexivity|]. left. reflexivity.
Defined.

(** ** The keys of the result *)

Local Set Warnings "-clear-no-such-hyp".

Ltac result_keys :=
  repeat split;
  try reflexivity;
  try (eexists; reflexivity);
  try (rewrite !dom_insert_L, dom_empty_L; set_solver).

(** X13. The mapping [process_prompt] returns has the keys success and
    answer and none of prompt, action, overall_direction, amount,
    number_unit; its keys are among success, answer, element,
    element_name, direction, number, unit.  Success is [True] exactly on
    the results that hold all of element, element_name, direction, number
    and unit; the other results have success [False] and neither number nor
    unit. *)
Theorem process_prompt_result_keys (nlp_models : NLPModels.t) (prompt : string)
    (result : dict) :
  NLPStructuralField.process_prompt nlp_models prompt = Ok result ->
  (result !! "prompt" = None /\ result !! "action" = None
   /\ result !! "overall_direction" = None /\ result !! "amount" = None
   /\ result !! "number_unit" = None)
  /\ is_Some (result !! "answer")
  /\ dom result ⊆ {[ "success"; "answer"; "element"; "element_name";
                     "direction"; "number"; "unit" ]}
  /\ ((result !! "success" = Some (VBool true)
       /\ is_Some (result !! "element") /\ is_Some (result !! "element_name")
       /\ is_Some (result !! "direction") /\ is_Some (result !! "number")
       /\ is_Some (result !! "unit"))
      \/ (result !! "success" = Some (VBool false)
          /\ result !! "number" = None /\ result !! "unit" = None)).
Proof.
  rewrite process_prompt_unfold.
  destruct (NLPField.which_element nlp_models NLPStructuralField.elements prompt)
    as [[element|]|e1]; [| |discriminate].
  2: { intros [= <-]. split; [|split; [|split]]; [result_keys..|right; result_keys]. }
  destruct (NLPField.element_name nlp_models prompt element) as [[name|]|e2];
    [| |discriminate].
  2: { intros [= <-]. split; [|split; [|split]]; [result_keys..|right; result_keys]. }
  destruct (NLPField.direction nlp_models NLPStructuralField.directions
              (NLPField.overall_direction nlp_models prompt)) as [direction|e3];
    [|discriminate].
  destruct (NLPField.amount_breakdown
              (NLPField.amount nlp_models
                 (NLPField.action nlp_models prompt element name)))
    as [[[x unit]|]|e4]; [| |discriminate].
  - intros [= <-]. split; [|split; [|split]]; [result_keys..|left; result_keys].
  - intros [= <-]. split; [|split; [|split]]; [result_keys..|right; result_keys].
Qed.

Lemma process_prompt_result_keys_witness :
  exists result,
    NLPStructuralField.process_prompt (Scenario.models Scenario.relevant "B125")
      Scenario.prompt = Ok result
    /\ result !! "prompt" = None
    /\ is_Some (result !! "answer").
Proof.
  assert (Hrun : exists result,
             NLPStructuralField.process_prompt
               (Scenario.models Scenario.relevant "B125") Scenario.prompt = Ok result)
    by (eexists; reflexivity).
  destruct Hrun as (result & Hrun).
  destruct (process_prompt_result_keys _ _ _ Hrun) as ((Hprompt & _) & Hanswer & _).
  exists result. repeat split; assumption.
Defined.

(** ** The answer and the slots *)

(** X14. The answer of a result tells the slots of that same result:
    with [s] the summary of the returned mapping, the answer of a
    successful result is "Hey! Perfect, I understood that [s]. Doing my job
    now!", and the answer of a failed one is "Hey! I understood [s].
    However, I could not understand which [item] you are talking about."
    with the request to rephrase, where [item] is element, element_name or
    amount. *)
Theorem answer_tells_result (nlp_models : NLPModels.t) (prompt : string)
    (result : dict) :
  NLPStructuralField.process_prompt nlp_models prompt = Ok result ->
  exists s,
    NLPStructuralField.summary result = Ok s
    /\ ((result !! "success" = Some (VBool true)
         /\ result !! "answer"
            = Some (VStr ("Hey! Perfect, I understood that " +:+ s
                            +:+ ". Doing my job now!")))
        \/ (result !! "success" = Some (VBool false)
            /\ exists item,
                 (item = "element" \/ item = "element_name" \/ item = "amount")
                 /\ result !! "answer"
                    = Some (VStr ("Hey! I understood " +:+ s
                                    +:+ ". However, I could not understand which "
                                    +:+ item +:+ " you are talking about. "
                                    +:+ "Would you mind to rephrase it in a clear way for me and try again? Thanks in advance!")))).
Proof.
  rewrite process_prompt_unfold.
  destruct (NLPField.which_element nlp_models NLPStructuralField.elements prompt)
    as [[element|]|e1]; [| |discriminate].
  2: { intros [= <-]. exists "". split; [reflexivity|]. right.
       split; [reflexivity|]. exists "element". split; [auto|reflexivity]. }
  destruct (NLPField.element_name nlp_models prompt element) as [[name|]|e2];
    [| |discriminate].
  2: { intros [= <-]. exists ("a " +:+ element). split; [reflexivity|]. right.
       split; [reflexivity|]. exists "element_name". split; [auto|reflexivity]. }
  destruct (NLPField.direction nlp_models NLPStructuralField.directions
              (NLPField.overall_direction nlp_models prompt)) as [direction|e3];
    [|discriminate].
  destruct (NLPField.amount_breakdown
              (NLPField.amount nlp_models
                 (NLPField.action nlp_models prompt element name)))
    as [[[x unit]|]|e4]; [| |discriminate].
  - intros [= <-]. exists (summary_4 element name direction x unit).
    split; [rewrite <- summary_4_eq; reflexivity|]. left.
    split; reflexivity.
  - intros [= <-]. exists (summary_3 element name direction).
    split; [rewrite <- summary_3_eq; reflexivity|]. right.
    split; [reflexivity|]. exists "amount". split; [auto|reflexivity].
Qed.

Lemma answer_tells_result_witness :
  exists result s,
    NLPStructuralField.process_prompt (Scenario.models Scenario.relevant "B125")
      Scenario.prompt = Ok result
    /\ NLPStructuralField.summary result = Ok s.
Proof.
  assert (Hrun : exists result,
             NLPStructuralField.process_prompt
               (Scenario.models Scenario.relevant "B125") Scenario.prompt = Ok result)
    by (eexists; reflexivity).
  destruct Hrun as (result & Hrun).
  destruct (answer_tells_result _ _ _ Hrun) as (s & Hs & _).
  exists result, s. split; assumption.
Defined.

(** X16. Discarding the intermediate slots does not change the summary:
    none of the keys [summary] reads is among the discarded names. *)
Theorem summary_after_discard (parsed_items : dict) :
  NLPStructuralField.summary (NLPStructuralField.discard_items parsed_items)
  = NLPStructuralField.summary parsed_items
  /\ NLPStructuralField.on_success (NLPStructuralField.discard_items parsed_items)
     = NLPStructuralField.on_success parsed_items.
Proof.
  assert (Hsum :
    NLPStructuralField.summary (NLPStructuralField.discard_items parsed_items)
    = NLPStructuralField.summary parsed_items).
  { unfold NLPStructuralField.summary, NLPStructuralField.discard_items.
    rewrite !discard_items_lookup. reflexivity. }
  split; [exact Hsum|].
  unfold NLPStructuralField.on_success. rewrite Hsum. reflexivity.
Qed.

(** ** The number of the amount *)

(** What follows the integer digits of a match: digits, or a point and
    digits. *)
Definition number_tail (m : list ascii) : Prop :=
  (m <> [] /\ forallb Py.isdigit m = true)
  \/ exists fs, m = "."%char :: fs /\ fs <> [] /\ forallb Py.isdigit fs = true.

Lemma digits_all (l : list ascii) : forallb Py.isdigit (Re.digits l) = true.
Proof.
  induction l as [|c l IH]; simpl; [reflexivity|].
  destruct (Py.isdigit c) eqn:Hc; simpl; [|reflexivity]. rewrite Hc. exact IH.
Qed.

Lemma plus_digits_shape (l m : list ascii) :
  Re.plus_digits l = Some m -> m <> [] /\ forallb Py.isdigit m = true.
Proof.
  unfold Re.plus_digits. pose proof (digits_all l) as Hall.
  destruct (Re.digits l) as [|d ds]; [discriminate|].
  intros [= <-]. split; [discriminate|exact Hall].
Qed.

Lemma opt_dot_shape (l m : list ascii) :
  Re.opt_dot l = Some m -> number_tail m.
Proof.
  unfold Re.opt_dot. destruct l as [|c l].
  - intros H. left. eapply plus_digits_shape, H.
  - destruct (Ascii.eqb_spec c ".") as [->|Hc].
    + destruct (Re.plus_digits l) as [fs|] eqn:Hfs.
      * intros [= <-]. right. exists fs. split; [reflexivity|].
        eapply plus_digits_shape, Hfs.
      * intros H. left. eapply plus_digits_shape, H.
    + intros H. left. eapply plus_digits_shape, H.
Qed.

Lemma star_digits_nil : Re.star_digits [] = Re.opt_dot [].
Proof. reflexivity. Qed.

Lemma star_digits_cons (c : ascii) (l : list ascii) :
  Re.star_digits (c :: l)
  = if Py.isdigit c
    then match Re.star_digits l with
         | Some m => Some (c :: m)
         | None => Re.opt_dot (c :: l)
         end
    else Re.opt_dot (c :: l).
Proof. reflexivity. Qed.

Lemma star_digits_shape (l : list ascii) :
  forall m, Re.star_digits l = Some m ->
  exists ds tail, m = ds ++ tail /\ forallb Py.isdigit ds = true /\ number_tail tail.
Proof.
  assert (Hdot : forall l' m, Re.opt_dot l' = Some m ->
            exists ds tail, m = ds ++ tail /\ forallb Py.isdigit ds = true
                            /\ number_tail tail).
  { intros l' m H. exists [], m. split; [reflexivity|]. split; [reflexivity|].
    eapply opt_dot_shape, H. }
  induction l as [|c l IH]; intros m.
  - rewrite star_digits_nil. apply Hdot.
  - rewrite star_digits_cons. destruct (Py.isdigit c) eqn:Hc; [|apply Hdot].
    destruct (Re.star_digits l) as [m'|] eqn:Hm'; [|apply Hdot].
    intros [= <-]. destruct (IH m' eq_refl) as (ds & tail & -> & Hds & Htail).
    exists (c :: ds), tail. simpl. rewrite Hc, Hds. auto.
Qed.

Definition is_sign (c : ascii) : bool := Ascii.eqb c "-" || Ascii.eqb c "+".

Lemma opt_sign_shape (l m : list ascii) :
  Re.opt_sign l = Some m ->
  exists sign ds tail,
    m = sign ++ ds ++ tail
    /\ (sign = [] \/ exists c, sign = [c] /\ is_sign c = true)
    /\ forallb Py.isdigit ds = true /\ number_tail tail.
Proof.
  unfold Re.opt_sign. destruct l as [|c l].
  - intros H. apply star_digits_shape in H as (ds & tail & -> & Hds & Htail).
    exists [], ds, tail. auto.
  - fold (is_sign c). destruct (is_sign c) eqn:Hc.
    + destruct (Re.star_digits l) as [m'|] eqn:Hm'.
      * intros [= <-]. apply star_digits_shape in Hm' as (ds & tail & -> & Hds & Htail).
        exists [c], ds, tail. split; [reflexivity|]. split; [right; eauto|auto].
      * intros H. apply star_digits_shape in H as (ds & tail & -> & Hds & Htail).
        exists [], ds, tail. auto.
    + intros H. apply star_digits_shape in H as (ds & tail & -> & Hds & Htail).
      exists [], ds, tail. auto.
Qed.

(** The digits and the tail of a match, without the sign. *)
Definition unsigned_number (l : list ascii) : Prop :=
  exists ds tail, l = ds ++ tail /\ forallb Py.isdigit ds = true /\ number_tail tail.

Lemma digit_run_app (ds rest : list ascii) :
  forallb Py.isdigit ds = true ->
  Float.digit_run (ds ++ rest)
  = ((ds ++ (Float.digit_run rest).1), (Float.digit_run rest).2).
Proof.
  induction ds as [|d ds IH]; simpl.
  - intros _. destruct (Float.digit_run rest). reflexivity.
  - intros [Hd Hds]%andb_prop. rewrite Hd, (IH Hds). reflexivity.
Qed.

Lemma digit_run_digits (ds : list ascii) :
  forallb Py.isdigit ds = true -> Float.digit_run ds = (ds, []).
Proof.
  intros H. rewrite <- (app_nil_r ds) at 1. rewrite (digit_run_app _ _ H).
  simpl. rewrite app_nil_r. reflexivity.
Qed.

Lemma digit_run_unsigned (l : list ascii) :
  unsigned_number l ->
  (exists int, int <> [] /\ Float.digit_run l = (int, []))
  \/ (exists int fs,
        Float.digit_run l = (int, "."%char :: fs)
        /\ fs <> [] /\ Float.digit_run fs = (fs, [])).
Proof.
  intros (ds & tail & -> & Hds & [[Hne Htail]|(fs & -> & Hne & Hfs)]).
  - left. exists (ds ++ tail). split.
    + destruct tail; [contradiction|]. destruct ds; discriminate.
    + apply digit_run_digits. rewrite forallb_app, Hds, Htail. reflexivity.
  - right. exists ds, fs. split; [|split; [exact Hne|apply digit_run_digits, Hfs]].
    rewrite (digit_run_app _ _ Hds). simpl. rewrite app_nil_r. reflexivity.
Qed.

Lemma digit_not_sign (c : ascii) : Py.isdigit c = true -> is_sign c = false.
Proof.
  intros Hc. unfold is_sign.
  destruct (Ascii.eqb_spec c "-") as [->|_]; [discriminate|].
  destruct (Ascii.eqb_spec c "+") as [->|_]; [discriminate|]. reflexivity.
Qed.

Lemma unsigned_number_head (l : list ascii) :
  unsigned_number l -> exists c l', l = c :: l' /\ is_sign c = false.
Proof.
  intros (ds & tail & -> & Hds & Htail). destruct ds as [|d ds]; simpl in *.
  - destruct Htail as [[Hne Htail]|(fs & -> & _)].
    + destruct tail as [|t tail]; [contradiction|]. simpl in Htail.
      apply andb_prop in Htail as [Ht _]. exists t, tail. split; [reflexivity|].
      apply digit_not_sign, Ht.
    + exists "."%char, fs. split; reflexivity.
  - apply andb_prop in Hds as [Hd _]. exists d, (ds ++ tail). split; [reflexivity|].
    apply digit_not_sign, Hd.
Qed.

Ltac of_str_digits H :=
  destruct (digit_run_unsigned _ H) as [(int & Hint & ->)|(int & fs & -> & Hfs & Hrun)];
  [ destruct int; [contradiction|]; eexists; reflexivity
  | simpl; rewrite Hrun;
    destruct (int ++ fs) eqn:Happ;
    [ apply app_eq_nil in Happ as [_ ->]; contradiction | eexists; reflexivity ] ].

Lemma of_str_unsigned (l : list ascii) :
  unsigned_number l -> exists x, Float.of_str (Py.str l) = Ok x.
Proof.
  intros H. unfold Float.of_str, Py.chars, Py.str.
  rewrite list_ascii_of_string_of_list_ascii.
  destruct (unsigned_number_head l H) as (c & l' & -> & Hc).
  unfold is_sign in Hc. apply orb_false_elim in Hc as [-> ->].
  of_str_digits H.
Qed.

Lemma of_str_signed (c : ascii) (l : list ascii) :
  is_sign c = true -> unsigned_number l ->
  exists x, Float.of_str (Py.str (c :: l)) = Ok x.
Proof.
  intros Hc H. unfold Float.of_str, Py.chars, Py.str.
  rewrite list_ascii_of_string_of_list_ascii.
  unfold is_sign in Hc.
  destruct (Ascii.eqb c "-"); [of_str_digits H|].
  simpl in Hc. rewrite Hc. of_str_digits H.
Qed.

Lemma of_str_match (prev : option ascii) (l m : list ascii) :
  Re.match_at prev l = Some m -> exists x, Float.of_str (Py.str m) = Ok x.
Proof.
  unfold Re.match_at. destruct (Re.lookbehind prev); [|discriminate].
  intros (sign & ds & tail & -> & [->|(c & -> & Hc)] & Hds & Htail)%opt_sign_shape.
  - apply of_str_unsigned. exists ds, tail. auto.
  - apply of_str_signed; [exact Hc|]. exists ds, tail. auto.
Qed.

Lemma findall_from_head (l : list ascii) :
  forall (skip : nat) (prev : option ascii) (number : string) (rest : list string),
    Re.findall_from skip prev l = number :: rest ->
    exists prev' l' m, Re.match_at prev' l' = Some m /\ number = Py.str m.
Proof.
  induction l as [|c l IH]; intros skip prev number rest; destruct skip as [|k]; simpl.
  - destruct (Re.match_at prev []) as [m|] eqn:Hm; [|discriminate].
    intros [= <- _]. eauto.
  - discriminate.
  - destruct (Re.match_at prev (c :: l)) as [m|] eqn:Hm.
    + intros [= <- _]. eauto.
    + apply IH.
  - apply IH.
Qed.

Lemma amount_breakdown_cases (amount : string) :
  (Re.findall amount = [] /\ NLPField.amount_breakdown amount = Ok None)
  \/ (exists number rest x unit,
        Re.findall amount = number :: rest
        /\ Float.of_str number = Ok x
        /\ NLPField.amount_breakdown amount = Ok (Some (x, unit))).
Proof.
  unfold NLPField.amount_breakdown.
  destruct (Re.findall amount) as [|number rest] eqn:Hfind; [left; auto|].
  right. unfold Re.findall in Hfind.
  apply findall_from_head in Hfind as (prev' & l' & m & Hm & ->).
  destruct (of_str_match _ _ _ Hm) as (x & Hx).
  exists (Py.str m), rest, x. rewrite Hx. simpl. eauto.
Qed.

(** X17. [amount_breakdown] never raises: whatever the amount, it returns
    [None], when the pattern finds no number, or a pair whose number is
    [float] of the first number found, [float] accepting every string the
    pattern matches. *)
Theorem amount_breakdown_never_raises (amount : string) :
  (Re.findall amount = [] /\ NLPField.amount_breakdown amount = Ok None)
  \/ (exists number rest x unit,
        Re.findall amount = number :: rest
        /\ Float.of_str number = Ok x
        /\ NLPField.amount_breakdown amount = Ok (Some (x, unit))).
Proof. exact (amount_breakdown_cases amount). Qed.

(** ** The unit of the amount *)







(** ** When the pattern finds a number *)
















(** ** The summary grows with the slots *)

Ltac summary_suffix :=
  (exists ""; rewrite append_empty_r; reflexivity)
  || (eexists; rewrite ?append_assoc; reflexivity).

(** X20. A new slot only extends the summary: when a key that is not in the
    slot set is added, the summary (where it is defined before and after)
    keeps what it said and at most says more. *)
Theorem summary_extends (parsed_items : dict) (key : string) (v : value)
    (s s' : string) :
  parsed_items !! key = None ->
  NLPStructuralField.summary parsed_items = Ok s ->
  NLPStructuralField.summary (<[key := v]> parsed_items) = Ok s' ->
  exists more, s' = s +:+ more.
Proof.
  intros Hnew. unfold NLPStructuralField.summary. rewrite !lookup_insert.
  repeat match goal with
         | |- context [decide (key = ?k)] =>
             destruct (decide (key = k)) as [->|?]
         end;
    try rewrite !Hnew;
    repeat match goal with
           | |- context [parsed_items !! ?k] => destruct (parsed_items !! k)
           end;
    intros Hs Hs'; try discriminate;
    injection Hs as <-; injection Hs' as <-; summary_suffix.
Qed.

Lemma summary_extends_witness :
  exists more,
    "a beam named B125" = "a beam" +:+ more.
Proof.
  apply (summary_extends (<["element" := VStr "beam"]> ∅) "element_name"
           (VStr "B125") "a beam" "a beam named B125"); reflexivity.
Defined.

(** ** Exceptions in the dispatcher *)

(** X21. The dispatcher passes on the exceptions of the relevance checks:
    when the check against "request" raises, so does [process_prompt]; and
    when the prompt is a request and the [found_inside] of a field raises,
    no field before it matching, [process_prompt] raises that exception
    and the fields after it are not asked. *)
Theorem agent_process_prompt_raises (nlp_models : NLPModels.t) (self : NLPAgent.t)
    (prompt : string) (e : exn) :
  (NLPModelsHelper.zero_shot nlp_models prompt "request" = Raise e ->
   NLPAgent.process_prompt nlp_models self prompt = Raise e)
  /\ (NLPModelsHelper.zero_shot nlp_models prompt "request" = Ok true ->
      forall before field after,
        NLPAgent.fields self = before ++ field :: after ->
        Forall (fun f => NLPAgent.found_inside f prompt = Ok false) before ->
        NLPAgent.found_inside field prompt = Raise e ->
        NLPAgent.process_prompt nlp_models self prompt = Raise e).
Proof.
  unfold NLPAgent.process_prompt. split.
  - intros ->. reflexivity.
  - intros -> before field after -> Hbefore Hfield. simpl.
    induction Hbefore as [|f before Hf _ IH]; simpl.
    + rewrite Hfield. reflexivity.
    + rewrite Hf. simpl. exact IH.
Qed.

(** A classifier that answers a single-label query with no score. *)
Definition no_score_models : NLPModels.t :=
  {| NLPModels.zero_shot := fun _ candidate_labels =>
       {| NLPModels.labels := candidate_labels; NLPModels.scores := [] |};
     NLPModels.question_answerer := fun _ _ => "" |}.

Lemma agent_process_prompt_raises_witness :
  NLPAgent.process_prompt no_score_models (NLPAgent.post_init no_score_models)
    Scenario.prompt = Raise IndexError.
Proof.
  apply (agent_process_prompt_raises no_score_models
           (NLPAgent.post_init no_score_models) Scenario.prompt IndexError).
  reflexivity.
Defined.

(** ** The agent, end to end *)

(** X22. For a prompt that is a request and is relevant to "structural",
    with the four extractors resolved, the agent returns the structural
    result: success [True], the five slots and the answer. *)
Theorem agent_end_to_end (nlp_models : NLPModels.t) (prompt : string)
    (element name direction unit : string) (x : spec_float) :
  NLPModelsHelper.zero_shot nlp_models prompt "request" = Ok true ->
  NLPModelsHelper.zero_shot nlp_models prompt "structural" = Ok true ->
  NLPField.which_element nlp_models NLPStructuralField.elements prompt
    = Ok (Some element) ->
  NLPField.element_name nlp_models prompt element = Ok (Some name) ->
  NLPField.direction nlp_models NLPStructuralField.directions
    (NLPField.overall_direction nlp_models prompt) = Ok direction ->
  NLPField.amount_breakdown
    (NLPField.amount nlp_models (NLPField.action nlp_models prompt element name))
    = Ok (Some (x, unit)) ->
  NLPAgent.process_prompt nlp_models (NLPAgent.post_init nlp_models) prompt
  = Ok (Some
          (<["answer" :=
               VStr ("Hey! Perfect, I understood that a " +:+ element +:+ " named "
                       +:+ name +:+ " is requested to be moved " +:+ direction
                       +:+ " by " +:+ Float.repr x +:+ " " +:+ unit
                       +:+ ". Doing my job now!")]>
             (<["unit" := VStr unit]>
                (<["number" := VFloat x]>
                   (<["direction" := VStr direction]>
                      (<["element_name" := VStr name]>
                         (<["element" := VStr element]>
                            (<["success" := VBool true]> ∅)))))))).
Proof.
  intros Hrequest Hstructural Helement Hname Hdirection Hbreak.
  unfold NLPAgent.process_prompt, NLPAgent.post_init, NLPAgent.setup_fields. simpl.
  rewrite Hrequest, structural_found_inside, Hstructural. simpl.
  rewrite process_prompt_unfold, Helement, Hname, Hdirection, Hbreak. simpl.
  unfold success_answer, summary_4. rewrite !append_assoc. reflexivity.
Qed.

Lemma agent_end_to_end_witness :
  exists result,
    NLPAgent.process_prompt (Scenario.models Scenario.relevant "B125")
      (NLPAgent.post_init (Scenario.models Scenario.relevant "B125")) Scenario.prompt
    = Ok (Some result)
    /\ result !! "number" = Some (VFloat Scenario.f_0_2).
Proof.
  eexists. split.
  - apply (agent_end_to_end (Scenario.models Scenario.relevant "B125")
             Scenario.prompt "beam" "B125" "down" "m" Scenario.f_0_2); reflexivity.
  - reflexivity.
Defined.
